(** * A shallow embedding of [rag.py]

    The program is a retrieval-augmented question-answering application:
    PDF pages are split into chunks, embedded and stored in a vector index
    on disk ([get_documents], [get_vector_store]); a question is answered
    by loading that index, retrieving the three nearest chunks, rendering
    them into [prompt_template] and sending the prompt to the language
    model ([get_response_llm], [main]).

    Strings are [string], Python dicts with string keys are [gmap string _],
    exceptions are the type [exn], and code with effects (the disk, the
    Bedrock service, the Streamlit page) runs in the state-and-exception
    monad [M] over [World]. The models behind the Bedrock client, the
    similarity metric and the delimiter of the chain are parameters of the
    development ([Section Pipeline]); the credentials and the region the
    client is built with play no part in it. What the program takes from
    its libraries (splitter, vector store, chain) is modelled from the
    specification and marked so. *)

From Stdlib Require Import String Ascii List ZArith QArith Qabs Lia Permutation Sorted.
From stdpp Require Import base option gmap strings list fin_maps.

Open Scope string_scope.
Open Scope list_scope.

(** ** Exceptions and results *)

(** The failures of the pipeline, and the two exceptions [str.format]
    raises. *)
Inductive exn : Type :=
| InvalidConfig
| InvalidArgument
| EmbeddingError (provider_message : string)
| DimensionMismatch
| IndexLoadError (why : string)
| GenerationError (provider_message : string)
| ValueError (msg : string)
| KeyError (key : string).

Inductive result (A : Type) : Type :=
| Ok (a : A)
| Err (e : exn).
Arguments Ok {A} a.
Arguments Err {A} e.

Definition result_bind {A B : Type} (f : A -> result B) (r : result A) : result B :=
  match r with
  | Ok a => f a
  | Err e => Err e
  end.

Definition result_map {A B : Type} (f : A -> B) (r : result A) : result B :=
  result_bind (fun a => Ok (f a)) r.

#[global] Instance result_ret : MRet result := fun A a => Ok a.
#[global] Instance result_mbind : MBind result := fun A B f r => result_bind f r.
#[global] Instance result_fmap : FMap result := fun A B f r => result_map f r.

(** ** Text *)

Definition newline : string := String (ascii_of_nat 10) EmptyString.

(** [sep.join(parts)] *)
Fixpoint join (sep : string) (parts : list string) : string :=
  match parts with
  | [] => ""
  | [p] => p
  | p :: ps => p +:+ sep +:+ join sep ps
  end.

(** [t in s]: [t] is a contiguous piece of [s]. *)
Definition substring_of (t s : string) : Prop :=
  exists before after, s = before +:+ t +:+ after.

(** The texts [ts] occur in [s] one after the other, without overlapping,
    in the order of the list. *)
Inductive occur_in_order : list string -> string -> Prop :=
| occur_nil (s : string) : occur_in_order [] s
| occur_cons (t : string) (ts : list string) (before after : string) :
    occur_in_order ts after ->
    occur_in_order (t :: ts) (before +:+ t +:+ after).

(** ** [str.format] and [PromptTemplate] *)

Module PyFormat.

(** A format string is a sequence of literal pieces and replacement
    fields, as [string.Formatter.parse] yields them. *)
Inductive segment : Type :=
| Literal (s : string)
| Field (name : string).

Definition lit (c : ascii) (segs : list segment) : list segment :=
  match segs with
  | Literal s :: rest => Literal (String c s) :: rest
  | _ => Literal (String c "") :: segs
  end.

Definition open_brace : ascii := "{"%char.
Definition close_brace : ascii := "}"%char.

(** [field] is [Some name] while the scanner is inside a replacement
    field whose name so far is [name]. A doubled brace is a literal
    brace. *)
Fixpoint parse (field : option string) (t : string) : result (list segment) :=
  match field, t with
  | None, EmptyString => Ok []
  | Some _, EmptyString => Err (ValueError "expected '}' before end of string")
  | Some name, String c t' =>
      if Ascii.eqb c close_brace then cons (Field name) <$> parse None t'
      else if Ascii.eqb c open_brace then Err (ValueError "unexpected '{' in field name")
      else parse (Some (name +:+ String c "")) t'
  | None, String c t' =>
      if Ascii.eqb c open_brace then
        match t' with
        | EmptyString => Err (ValueError "Single '{' encountered in format string")
        | String c2 t'' =>
            if Ascii.eqb c2 open_brace then lit open_brace <$> parse None t''
            else parse (Some "") t'
        end
      else if Ascii.eqb c close_brace then
        match t' with
        | EmptyString => Err (ValueError "Single '}' encountered in format string")
        | String c2 t'' =>
            if Ascii.eqb c2 close_brace then lit close_brace <$> parse None t''
            else Err (ValueError "Single '}' encountered in format string")
        end
      else lit c <$> parse None t'
  end.

(** The values are substituted as they are: they are not scanned for
    braces again. *)
Fixpoint render (segs : list segment) (kwargs : gmap string string) : result string :=
  match segs with
  | [] => Ok ""
  | Literal s :: rest => (fun r => s +:+ r) <$> render rest kwargs
  | Field name :: rest =>
      match kwargs !! name with
      | None => Err (KeyError name)
      | Some v => (fun r => v +:+ r) <$> render rest kwargs
      end
  end.

(** [template.format] applied to the keyword arguments [kwargs] *)
Definition format (template : string) (kwargs : gmap string string) : result string :=
  segs ← parse None template; render segs kwargs.

End PyFormat.

Record PromptTemplate : Type := {
  template : string;
  input_variables : list string
}.

(** [prompt.format] applied to the keyword arguments [kwargs] *)
Definition PromptTemplate_format (p : PromptTemplate) (kwargs : gmap string string) : result string :=
  PyFormat.format (template p) kwargs.

(** ** The prompt of [rag.py] *)

(** The triple-quoted literal of the source, line by line: it starts and
    ends with a line break, and three of its lines end with a space. *)
Definition prompt_template : string :=
  join newline
    [ "";
      "Human: Use the following pieces of context to provide a ";
      "concise answer to the question at the end but summarize with ";
      "at least 250 words with detailed explanations. If you don't know the answer, ";
      "just say that you don't know, don't try to make up an answer.";
      "<context>";
      "{context}";
      "</context>";
      "";
      "Question: {question}";
      "";
      "Assistant:";
      "" ].

Definition PROMPT : PromptTemplate :=
  {| template := prompt_template; input_variables := ["context"; "question"] |}.

(** The literal pieces of [prompt_template] around its two fields. *)
Definition prompt_head : string :=
  join newline
    [ "";
      "Human: Use the following pieces of context to provide a ";
      "concise answer to the question at the end but summarize with ";
      "at least 250 words with detailed explanations. If you don't know the answer, ";
      "just say that you don't know, don't try to make up an answer.";
      "<context>";
      "" ].

Definition prompt_middle : string :=
  join newline [ ""; "</context>"; ""; "Question: " ].

Definition prompt_tail : string :=
  join newline [ ""; ""; "Assistant:"; "" ].

(** The sentence of the template that tells the model to decline. *)
Definition decline_instruction : string :=
  join newline
    [ "If you don't know the answer, ";
      "just say that you don't know, don't try to make up an answer." ].

(** The template with its two fields filled in. *)
Definition rendered (context question : string) : string :=
  prompt_head +:+ context +:+ prompt_middle +:+ question +:+ prompt_tail.

(** ** Data model *)

(** A loaded PDF page: [page_content] and the metadata the loader sets. *)
Record Document : Type := {
  source : string;
  page : nat;
  page_content : string
}.

Record Chunk : Type := {
  source_document_id : string * nat;
  start_offset : nat;
  end_offset : nat;
  text : string
}.

Definition Vector : Type := list Q.

(** (chunk, similarity score) pairs, best first. *)
Definition RetrievalResult : Type := list (Chunk * Q).

Record BedrockEmbeddings : Type := {
  embeddings_model_id : string
}.

Record Bedrock : Type := {
  model_id : string;
  model_kwargs : gmap string Z
}.

(** The vector store: the embedding function it was given, and the
    (chunk, vector) pairs of its index. *)
Record FAISS : Type := {
  embedding_function : BedrockEmbeddings;
  dimension : nat;
  entries : list (Chunk * Vector)
}.

(** The persisted index: a header and the bulk payload. *)
Record Header : Type := {
  format_version : nat;
  metric_id : string;
  vector_dimension : nat
}.

Record Blob : Type := {
  header : Header;
  payload : list (Chunk * Vector)
}.

Record VectorStoreRetriever : Type := {
  vectorstore : FAISS;
  search_type : string;
  search_kwargs : gmap string Z
}.

Record RetrievalQA : Type := {
  llm : Bedrock;
  chain_type : string;
  retriever : VectorStoreRetriever;
  return_source_documents : bool;
  chain_prompt : PromptTemplate
}.

(** The dict a [RetrievalQA] call returns: keys ["query"], ["result"] and,
    when asked for, ["source_documents"]. *)
Record Answer : Type := {
  query : string;
  answer_result : string;
  source_documents : option RetrievalResult
}.

(** ** The world the program runs in *)

(** What the page shows, in the order the script emits it. *)
Inductive Widget : Type :=
| PageConfig (page_title : string)
| Heading (body : string)
| TextInput (label : string)
| SidebarTitle (body : string)
| Button (label : string)
| Spinner (body : string)
| Success (body : string)
| Written (body : string).

(** The widget state of one run of the script. *)
Record Session : Type := {
  typed_question : string;
  store_vector_pressed : bool;
  send_pressed : bool
}.

(** A request sent to the Bedrock service. *)
Inductive Request : Type :=
| EmbedRequest (model : string) (input : string)
| GenerateRequest (model : string) (prompt : string) (kwargs : gmap string Z).

Definition is_embed_request (r : Request) : Prop :=
  match r with
  | EmbedRequest _ _ => True
  | GenerateRequest _ _ _ => False
  end.

Record World : Type := {
  directories : gmap string (list Document);
  disk : gmap string Blob;
  session : Session;
  screen : list Widget;
  requests : list Request
}.

(** State and exceptions: the effects made before an exception is raised
    stay. *)
Definition M (A : Type) : Type := World -> result A * World.

Definition M_ret {A : Type} (a : A) : M A := fun w => (Ok a, w).

Definition M_bind {A B : Type} (f : A -> M B) (c : M A) : M B :=
  fun w =>
    match c w with
    | (Ok a, w') => f a w'
    | (Err e, w') => (Err e, w')
    end.

#[global] Instance M_mret : MRet M := fun A a => M_ret a.
#[global] Instance M_mbind : MBind M := fun A B f c => M_bind f c.

Definition raise {A : Type} (e : exn) : M A := fun w => (Err e, w).

Definition lift {A : Type} (r : result A) : M A := fun w => (r, w).

Definition get_world : M World := fun w => (Ok w, w).

Definition show (x : Widget) (w : World) : World :=
  {| directories := directories w; disk := disk w; session := session w;
     screen := screen w ++ [x]; requests := requests w |}.

Definition record_request (r : Request) (w : World) : World :=
  {| directories := directories w; disk := disk w; session := session w;
     screen := screen w; requests := requests w ++ [r] |}.

Definition store_file (path : string) (b : Blob) (w : World) : World :=
  {| directories := directories w; disk := <[path := b]> (disk w);
     session := session w; screen := screen w; requests := requests w |}.

Definition st_emit (x : Widget) : M unit := fun w => (Ok tt, show x w).

Definition send_request (r : Request) : M unit := fun w => (Ok tt, record_request r w).

Definition write_file (path : string) (b : Blob) : M unit := fun w => (Ok tt, store_file path b w).

(** The page after the widgets [xs] were emitted, first to last. *)
Definition shown (xs : list Widget) (w : World) : World :=
  fold_left (fun w' x => show x w') xs w.

(** ** Streamlit *)

Definition st_set_page_config (page_title : string) : M unit := st_emit (PageConfig page_title).
Definition st_header (body : string) : M unit := st_emit (Heading body).
Definition st_title (body : string) : M unit := st_emit (SidebarTitle body).
Definition st_spinner (body : string) : M unit := st_emit (Spinner body).
Definition st_success (body : string) : M unit := st_emit (Success body).
Definition st_write (body : string) : M unit := st_emit (Written body).

Definition st_text_input (label : string) : M string :=
  st_emit (TextInput label);; w ← get_world; mret (typed_question (session w)).

(** The page has two buttons; [st.button] is true in the run that follows
    a click. *)
Definition st_button (label : string) : M bool :=
  st_emit (Button label);;
  w ← get_world;
  mret (if String.eqb label "Store Vector" then store_vector_pressed (session w)
        else if String.eqb label "Send" then send_pressed (session w)
        else false).

(** ** The chunker *)

(** [s[i:j]] *)
Definition slice (s : string) (i j : nat) : string := String.substring i (j - i) s.

(** The windows [(start, end)] over a text of [len] characters: each is
    [max_size] long and starts [step] after the one before; the window
    that reaches the end of the text is cut there and is the last. *)
Fixpoint windows (fuel len start max_size step : nat) : list (nat * nat) :=
  match fuel with
  | O => []
  | S fuel' =>
      if (len <=? start + max_size)%nat then [(start, len)]
      else (start, (start + max_size)%nat) :: windows fuel' len (start + step) max_size step
  end.

(** Modelled from the spec: the text splitter is the library's
    [RecursiveCharacterTextSplitter], which is not among the sources; this
    is the chunker of section 4.1: a window of [max_size] characters slides
    over the text and advances by [max_size - overlap]; the last chunk may
    be shorter; an empty text gives no chunk; [max_size > 0] and
    [0 <= overlap < max_size] are required. *)
Definition chunk (document : Document) (max_size overlap : Z) : result (list Chunk) :=
  if ((max_size <=? 0) || (overlap <? 0) || (max_size <=? overlap))%Z then Err InvalidConfig
  else
    let t := page_content document in
    let len := String.length t in
    let m := Z.to_nat max_size in
    let o := Z.to_nat overlap in
    if (len =? 0)%nat then Ok []
    else
      Ok (map (fun w : nat * nat =>
                 {| source_document_id := (source document, page document);
                    start_offset := fst w;
                    end_offset := snd w;
                    text := slice t (fst w) (snd w) |})
              (windows len len 0 m (m - o))).

Record RecursiveCharacterTextSplitter : Type := {
  chunk_size : Z;
  chunk_overlap : Z
}.

(** [text_splitter.split_documents(documents)]: the chunks of every
    document, in order. *)
Fixpoint split_documents (text_splitter : RecursiveCharacterTextSplitter)
    (documents : list Document) : result (list Chunk) :=
  match documents with
  | [] => Ok []
  | d :: ds =>
      cs ← chunk d (chunk_size text_splitter) (chunk_overlap text_splitter);
      rest ← split_documents text_splitter ds;
      mret (cs ++ rest)
  end.

(** [PyPDFDirectoryLoader(path).load()] *)
Definition PyPDFDirectoryLoader_load (path : string) : M (list Document) :=
  w ← get_world; mret (default [] (directories w !! path)).

(** ** Ranking *)

(** [e] goes before the first entry that does not score higher: among
    equal scores the entry inserted last comes first. *)
Fixpoint insert_by_score (e : Chunk * Q) (l : RetrievalResult) : RetrievalResult :=
  match l with
  | [] => [e]
  | h :: t => if Qle_bool (snd h) (snd e) then e :: h :: t else h :: insert_by_score e t
  end.

(** Descending by score; entries with equal scores keep their order. *)
Definition rank (l : RetrievalResult) : RetrievalResult :=
  fold_right insert_by_score [] l.

(** [a] may stand before [b] in a result: it scores at least as high. *)
Definition scores_at_least (a b : Chunk * Q) : Prop := (snd b <= snd a)%Q.

Definition FORMAT_VERSION : nat := 1.

(** What the Bedrock service answers to a request. *)
Inductive response (A : Type) : Type :=
| Reply (a : A)
| Refusal (provider_message : string).
Arguments Reply {A} a.
Arguments Refusal {A} provider_message.

Section Pipeline.

(** The collaborators the program is given: the embedding model and the
    language model behind the Bedrock client, the dimension of the
    vectors the embedding model returns, the similarity metric of the
    index and its identifier, and the delimiter the chain puts between
    the documents it stuffs into the prompt. *)
Variable provider_embed : string -> string -> response Vector.
Variable provider_dimension : string -> nat.
Variable provider_generate : string -> string -> gmap string Z -> response string.
Variable similarity : Vector -> Vector -> Q.
Variable metric_name : string.
Variable document_separator : string.

(** *** Embedder and generator *)

(** Modelled from the spec: the clients of the embedding model and of the
    language model are the library's; these are the interfaces of section
    6: a text goes to the provider, which answers with a value or fails
    with its message as [EmbeddingError] or [GenerationError]. *)
Definition embed_query (e : BedrockEmbeddings) (input : string) : M Vector :=
  send_request (EmbedRequest (embeddings_model_id e) input);;
  match provider_embed (embeddings_model_id e) input with
  | Reply v => mret v
  | Refusal msg => raise (EmbeddingError msg)
  end.

Definition invoke_llm (l : Bedrock) (prompt : string) : M string :=
  send_request (GenerateRequest (model_id l) prompt (model_kwargs l));;
  match provider_generate (model_id l) prompt (model_kwargs l) with
  | Reply t => mret t
  | Refusal msg => raise (GenerationError msg)
  end.

(** *** The index *)

(** Every chunk is embedded, in order; the first failure ends the build,
    and a vector of another dimension than the embedder's is fatal. *)
Fixpoint embed_chunks (e : BedrockEmbeddings) (chunks : list Chunk) : M (list (Chunk * Vector)) :=
  match chunks with
  | [] => mret []
  | c :: cs =>
      v ← embed_query e (text c);
      (if (List.length v =? provider_dimension (embeddings_model_id e))%nat
       then mret tt else raise DimensionMismatch);;
      rest ← embed_chunks e cs;
      mret ((c, v) :: rest)
  end.

(** Modelled from the spec: [FAISS.from_documents] is the library's and
    not among the sources; this is [build] of section 4.2: it embeds
    every chunk and stores the (chunk, vector) pairs, fails with
    [EmbeddingError] when an embedding call fails, and then returns no
    index. *)
Definition FAISS_from_documents (docs : list Chunk) (e : BedrockEmbeddings) : M FAISS :=
  es ← embed_chunks e docs;
  mret {| embedding_function := e;
          dimension := provider_dimension (embeddings_model_id e);
          entries := es |}.

Definition scored (store : FAISS) (query_vector : Vector) : RetrievalResult :=
  map (fun e : Chunk * Vector => (fst e, similarity query_vector (snd e))) (entries store).

(** Modelled from the spec: the similarity search of the library's
    vector store is not among the sources; this is [search] of section
    4.2: the [k] nearest chunks by the fixed metric, best first, ties in
    insertion order; all entries when there are fewer than [k];
    [InvalidArgument] when [k <= 0]. *)
Definition search (store : FAISS) (query_vector : Vector) (k : Z) : result RetrievalResult :=
  if (k <=? 0)%Z then Err InvalidArgument
  else Ok (take (Z.to_nat k) (rank (scored store query_vector))).

(** What [save] writes for a store, and the store [load] makes of a
    blob. *)
Definition persisted (store : FAISS) : Blob :=
  {| header := {| format_version := FORMAT_VERSION;
                  metric_id := metric_name;
                  vector_dimension := dimension store |};
     payload := entries store |}.

Definition restored (e : BedrockEmbeddings) (blob : Blob) : FAISS :=
  {| embedding_function := e;
     dimension := vector_dimension (header blob);
     entries := payload blob |}.

(** Modelled from the spec: [save_local] is the library's and not among
    the sources; this is [save] of sections 4.2 and 6: the blob at
    [path] holds the format version, the metric identifier, the vector
    dimension and the (chunk, vector) collection. *)
Definition FAISS_save_local (store : FAISS) (path : string) : M unit :=
  write_file path (persisted store).

Definition header_ok (h : Header) (e : BedrockEmbeddings) : bool :=
  (format_version h =? FORMAT_VERSION)%nat
  && String.eqb (metric_id h) metric_name
  && (vector_dimension h =? provider_dimension (embeddings_model_id e))%nat.

Definition payload_ok (h : Header) (p : list (Chunk * Vector)) : bool :=
  forallb (fun e : Chunk * Vector => (List.length (snd e) =? vector_dimension h)%nat) p.

(** Modelled from the spec: [load_local] is the library's and not among
    the sources; this is [load] of sections 4.2, 6 and 9: a missing file
    fails with [IndexLoadError]; the header is checked before the
    payload is looked at, and a payload that does not fit its header is
    refused; with [allow_dangerous_deserialization] (the escape hatch
    section 9 says the program relies on) the validation is bypassed and
    the file is trusted as it is. *)
Definition FAISS_load_local (path : string) (e : BedrockEmbeddings)
    (allow_dangerous_deserialization : bool) : M FAISS :=
  w ← get_world;
  match disk w !! path with
  | None => raise (IndexLoadError "no index at this path")
  | Some blob =>
      let store := restored e blob in
      if allow_dangerous_deserialization then mret store
      else if negb (header_ok (header blob) e) then raise (IndexLoadError "header")
      else if negb (payload_ok (header blob) (payload blob)) then raise (IndexLoadError "payload")
      else mret store
  end.

(** *** The retriever *)

Definition as_retriever (store : FAISS) (search_type : string)
    (search_kwargs : gmap string Z) : VectorStoreRetriever :=
  {| vectorstore := store; search_type := search_type; search_kwargs := search_kwargs |}.

(** Modelled from the spec: the retriever of section 4.3 embeds the
    query with one call and delegates to [search]; [k] is read from
    [search_kwargs], with the library's default of 4. *)
Definition get_relevant_documents (r : VectorStoreRetriever) (question : string) : M RetrievalResult :=
  let store := vectorstore r in
  let k := default 4%Z (search_kwargs r !! "k") in
  v ← embed_query (embedding_function store) question;
  lift (search store v k).

(** *** Prompt assembly and the chain *)

(** Modelled from the spec: the chain that stuffs the documents into the
    prompt is the library's; this is the context block of section 4.4: the
    texts of the retrieved chunks, in the order of the result, with a
    fixed delimiter between them. *)
Definition context_block (docs : RetrievalResult) : string :=
  join document_separator (map (fun d : Chunk * Q => text (fst d)) docs).

(** The prompt: the template with the context block as its [context] and
    the query as its [question]. *)
Definition assemble (p : PromptTemplate) (docs : RetrievalResult) (question : string) : result string :=
  PromptTemplate_format p (<["context" := context_block docs]> (<["question" := question]> ∅)).

Definition RetrievalQA_from_chain_type (llm : Bedrock) (chain_type : string)
    (retriever : VectorStoreRetriever) (return_source_documents : bool)
    (prompt : PromptTemplate) : RetrievalQA :=
  {| llm := llm; chain_type := chain_type; retriever := retriever;
     return_source_documents := return_source_documents; chain_prompt := prompt |}.

(** Modelled from the spec: the chain is the library's and not among the
    sources; this is the pipeline of section 4.5: retrieve, assemble,
    generate, and return the text with the documents it was grounded on
    when [return_source_documents] is set. Only the chain type the
    program uses is modelled. *)
Definition RetrievalQA_call (qa : RetrievalQA) (question : string) : M Answer :=
  if negb (String.eqb (chain_type qa) "stuff") then raise (ValueError "unsupported chain type")
  else
    docs ← get_relevant_documents (retriever qa) question;
    prompt ← lift (assemble (chain_prompt qa) docs question);
    generated ← invoke_llm (llm qa) prompt;
    mret {| query := question;
            answer_result := generated;
            source_documents := if return_source_documents qa then Some docs else None |}.

(** *** The functions of [rag.py] *)

Definition bedrock_embeddings : BedrockEmbeddings :=
  {| embeddings_model_id := "amazon.titan-embed-text-v2:0" |}.

Definition get_documents : M (list Chunk) :=
  documents ← PyPDFDirectoryLoader_load "data";
  let text_splitter := {| chunk_size := 1000; chunk_overlap := 500 |} in
  docs ← lift (split_documents text_splitter documents);
  mret docs.

Definition get_vector_store (docs : list Chunk) : M unit :=
  vectorstore_faiss ← FAISS_from_documents docs bedrock_embeddings;
  FAISS_save_local vectorstore_faiss "faiss_index".

Definition get_llm : Bedrock :=
  {| model_id := "meta.llama3-70b-instruct-v1:0";
     model_kwargs := {[ "max_gen_len" := 512%Z ]} |}.

Definition get_response_llm (llm : Bedrock) (vectorstore_faiss : FAISS) (query : string) : M string :=
  let qa :=
    RetrievalQA_from_chain_type llm "stuff"
      (as_retriever vectorstore_faiss "similarity" {[ "k" := 3%Z ]})
      true PROMPT in
  answer ← RetrievalQA_call qa query;
  mret (answer_result answer).

(** What every run of the script shows before it acts on a button. *)
Definition page_frame : list Widget :=
  [ PageConfig "RAG Demo";
    Heading "End-to-End RAG Application";
    TextInput "Ask a question from the PDF files:";
    SidebarTitle "Update or Create Vector Store";
    Button "Store Vector";
    Button "Send" ].

Definition main : M unit :=
  st_set_page_config "RAG Demo";;
  st_header "End-to-End RAG Application";;
  user_question ← st_text_input "Ask a question from the PDF files:";
  st_title "Update or Create Vector Store";;
  store_vector ← st_button "Store Vector";
  (if store_vector : bool then
     st_spinner "Processing...";;
     docs ← get_documents;
     get_vector_store docs;;
     st_success "Vector store created successfully!"
   else mret tt);;
  send ← st_button "Send";
  if send : bool then
    st_spinner "Processing...";;
    faiss_index ← FAISS_load_local "faiss_index" bedrock_embeddings true;
    let llm := get_llm in
    response_text ← get_response_llm llm faiss_index user_question;
    st_write response_text
  else mret tt.


(** *** The parts of [main] *)

(** What [main] shows before it looks at the first button. *)
Definition page_top : list Widget :=
  [ PageConfig "RAG Demo";
    Heading "End-to-End RAG Application";
    TextInput "Ask a question from the PDF files:";
    SidebarTitle "Update or Create Vector Store";
    Button "Store Vector" ].

(** The block under [if st.button("Store Vector")]. *)
Definition store_vector_block : M unit :=
  st_spinner "Processing...";;
  docs ← get_documents;
  get_vector_store docs;;
  st_success "Vector store created successfully!".

(** The block under [if st.button("Send")]. *)
Definition send_block (user_question : string) : M unit :=
  st_spinner "Processing...";;
  faiss_index ← FAISS_load_local "faiss_index" bedrock_embeddings true;
  let llm := get_llm in
  response_text ← get_response_llm llm faiss_index user_question;
  st_write response_text.

(** The chunks [get_documents] makes of the pages under "data". *)
Definition data_chunks (w : World) : list Chunk :=
  match split_documents {| chunk_size := 1000; chunk_overlap := 500 |}
          (default [] (directories w !! "data")) with
  | Ok chunks => chunks
  | Err _ => []
  end.

(** The requests the program is written to send: an embedding request to
    the model of [bedrock_embeddings], a generation request to the model
    of [get_llm] with its keyword arguments. *)
Definition program_request (r : Request) : Prop :=
  match r with
  | EmbedRequest model _ => model = embeddings_model_id bedrock_embeddings
  | GenerateRequest model _ kwargs => model = model_id get_llm /\ kwargs = model_kwargs get_llm
  end.

(** The embedding request for a chunk. *)
Definition chunk_request (e : BedrockEmbeddings) (c : Chunk) : Request :=
  EmbedRequest (embeddings_model_id e) (text c).

(** The next run of the script: the same world with another widget
    state. *)
Definition with_session (s : Session) (w : World) : World :=
  {| directories := directories w; disk := disk w; session := s;
     screen := screen w; requests := requests w |}.


(** What a run may do to the world: the documents and the session stay,
    the disk changes at "faiss_index" at most, the page and the request
    log only grow, and every new request is one of [program_request]. *)
Definition run_effect (w w' : World) : Prop :=
  directories w' = directories w
  /\ session w' = session w
  /\ (forall path : string, path <> "faiss_index" -> disk w' !! path = disk w !! path)
  /\ (exists out : list Widget, screen w' = screen w ++ out)
  /\ (exists sent : list Request,
        requests w' = requests w ++ sent /\ Forall program_request sent).




(** * Properties *)

(** ** Text *)

Lemma append_nil_l (s : string) : "" +:+ s = s.
Proof. reflexivity. Qed.

Lemma append_cons (c : ascii) (s t : string) : String c s +:+ t = String c (s +:+ t).
Proof. reflexivity. Qed.

Lemma append_nil_r (s : string) : s +:+ "" = s.
Proof.
  induction s as [|c s IH]; [reflexivity|].
  now rewrite append_cons, IH.
Qed.

Lemma append_assoc (a b c : string) : (a +:+ b) +:+ c = a +:+ (b +:+ c).
Proof.
  induction a as [|x a IH]; [reflexivity|].
  now rewrite !append_cons, IH.
Qed.

Lemma substring_of_refl (s : string) : substring_of s s.
Proof. exists "", "". now rewrite append_nil_l, append_nil_r. Qed.

Lemma substring_of_append_l (t s pre : string) :
  substring_of t s -> substring_of t (pre +:+ s).
Proof.
  intros (a & b & ->). exists (pre +:+ a), b. now rewrite append_assoc.
Qed.

Lemma substring_of_append_r (t s post : string) :
  substring_of t s -> substring_of t (s +:+ post).
Proof.
  intros (a & b & ->). exists a, (b +:+ post). now rewrite !append_assoc.
Qed.

Lemma join_cons (sep p : string) (ps : list string) :
  ps <> [] -> join sep (p :: ps) = p +:+ sep +:+ join sep ps.
Proof. destruct ps; [congruence | reflexivity]. Qed.

Lemma join_elem_substring (sep : string) (parts : list string) (p : string) :
  In p parts -> substring_of p (join sep parts).
Proof.
  induction parts as [|x xs IH]; intros Hin; [destruct Hin|].
  destruct xs as [|y ys].
  - destruct Hin as [-> | []]. apply substring_of_refl.
  - rewrite join_cons by discriminate.
    destruct Hin as [-> | Hin].
    + apply substring_of_append_r, substring_of_refl.
    + apply substring_of_append_l, substring_of_append_l, IH, Hin.
Qed.

Lemma join_occur_in_order (sep : string) (parts : list string) (pre : string) :
  occur_in_order parts (pre +:+ join sep parts).
Proof.
  revert pre. induction parts as [|x xs IH]; intros pre; [constructor|].
  destruct xs as [|y ys].
  - simpl. rewrite <- (append_nil_r x) at 2. constructor. constructor.
  - rewrite join_cons by discriminate. constructor. apply IH.
Qed.

(** ** The template *)

Example prompt_template_length : String.length prompt_template = 325.
Proof. vm_compute. reflexivity. Qed.

Lemma parse_prompt_template :
  PyFormat.parse None prompt_template =
  Ok [ PyFormat.Literal prompt_head; PyFormat.Field "context";
       PyFormat.Literal prompt_middle; PyFormat.Field "question";
       PyFormat.Literal prompt_tail ].
Proof. vm_compute. reflexivity. Qed.

Lemma prompt_template_pieces :
  prompt_template = prompt_head +:+ "{context}" +:+ prompt_middle +:+ "{question}" +:+ prompt_tail.
Proof. vm_compute. reflexivity. Qed.

Lemma format_prompt (context question : string) :
  PromptTemplate_format PROMPT (<["context" := context]> (<["question" := question]> ∅))
  = Ok (rendered context question).
Proof.
  unfold PromptTemplate_format, PyFormat.format. simpl template.
  rewrite parse_prompt_template. simpl.
  rewrite lookup_insert_eq.
  rewrite lookup_insert_ne by discriminate. rewrite lookup_insert_eq.
  simpl. unfold rendered. now rewrite append_nil_r.
Qed.

Lemma assemble_prompt (docs : RetrievalResult) (question : string) :
  assemble PROMPT docs question = Ok (rendered (context_block docs) question).
Proof. apply format_prompt. Qed.

(** ** Running the chain *)

Ltac run :=
  unfold mbind, M_mbind, M_bind, mret, M_mret, M_ret, raise, lift,
    send_request, st_emit, write_file, get_world.

Lemma embed_query_run (e : BedrockEmbeddings) (input : string) (w : World) :
  embed_query e input w =
  match provider_embed (embeddings_model_id e) input with
  | Reply v => (Ok v, record_request (EmbedRequest (embeddings_model_id e) input) w)
  | Refusal msg =>
      (Err (EmbeddingError msg), record_request (EmbedRequest (embeddings_model_id e) input) w)
  end.
Proof. unfold embed_query. run. now destruct (provider_embed _ _). Qed.

Lemma invoke_llm_run (l : Bedrock) (prompt : string) (w : World) :
  invoke_llm l prompt w =
  match provider_generate (model_id l) prompt (model_kwargs l) with
  | Reply t => (Ok t, record_request (GenerateRequest (model_id l) prompt (model_kwargs l)) w)
  | Refusal msg =>
      (Err (GenerationError msg),
       record_request (GenerateRequest (model_id l) prompt (model_kwargs l)) w)
  end.
Proof. unfold invoke_llm. run. now destruct (provider_generate _ _ _). Qed.

(** The chain [get_response_llm] builds, run on a question: the query is
    embedded, the three best entries are retrieved, the prompt is the
    template filled with them and the question, and the answer holds the
    model's text and these entries. *)
Lemma chain_run (l : Bedrock) (store : FAISS) (question : string) (w : World) :
  RetrievalQA_call
    (RetrievalQA_from_chain_type l "stuff"
       (as_retriever store "similarity" {[ "k" := 3%Z ]}) true PROMPT)
    question w =
  let model := embeddings_model_id (embedding_function store) in
  let w1 := record_request (EmbedRequest model question) w in
  match provider_embed model question with
  | Refusal msg => (Err (EmbeddingError msg), w1)
  | Reply v =>
      let docs := take 3 (rank (scored store v)) in
      let prompt := rendered (context_block docs) question in
      let w2 := record_request (GenerateRequest (model_id l) prompt (model_kwargs l)) w1 in
      match provider_generate (model_id l) prompt (model_kwargs l) with
      | Refusal msg => (Err (GenerationError msg), w2)
      | Reply t =>
          (Ok {| query := question; answer_result := t; source_documents := Some docs |}, w2)
      end
  end.
Proof.
  unfold RetrievalQA_call, RetrievalQA_from_chain_type, get_relevant_documents, as_retriever.
  simpl. rewrite lookup_singleton_eq. simpl.
  unfold mbind at 1, M_mbind, M_bind. unfold mbind at 1, M_bind.
  rewrite embed_query_run.
  destruct (provider_embed _ _) as [v|msg]; [|reflexivity].
  unfold lift, search. simpl.
  unfold mbind at 1, M_bind. rewrite assemble_prompt.
  unfold mbind at 1, M_bind. rewrite invoke_llm_run.
  now destruct (provider_generate _ _ _).
Qed.

Lemma get_response_llm_run (l : Bedrock) (store : FAISS) (question : string) (w : World) :
  get_response_llm l store question w =
  let model := embeddings_model_id (embedding_function store) in
  let w1 := record_request (EmbedRequest model question) w in
  match provider_embed model question with
  | Refusal msg => (Err (EmbeddingError msg), w1)
  | Reply v =>
      let docs := take 3 (rank (scored store v)) in
      let prompt := rendered (context_block docs) question in
      let w2 := record_request (GenerateRequest (model_id l) prompt (model_kwargs l)) w1 in
      match provider_generate (model_id l) prompt (model_kwargs l) with
      | Refusal msg => (Err (GenerationError msg), w2)
      | Reply t => (Ok t, w2)
      end
  end.
Proof.
  unfold get_response_llm. unfold mbind at 1, M_mbind, M_bind.
  rewrite chain_run. simpl.
  destruct (provider_embed _ _) as [v|msg]; [|reflexivity].
  now destruct (provider_generate _ _ _).
Qed.

(** ** Ranking *)

Lemma insert_by_score_length (e : Chunk * Q) (l : RetrievalResult) :
  List.length (insert_by_score e l) = S (List.length l).
Proof.
  induction l as [|h t IH]; simpl; [reflexivity|].
  destruct (Qle_bool (snd h) (snd e)); simpl; [reflexivity | now rewrite IH].
Qed.

Lemma rank_length (l : RetrievalResult) : List.length (rank l) = List.length l.
Proof.
  induction l as [|h t IH]; simpl; [reflexivity|].
  now rewrite insert_by_score_length, IH.
Qed.

Lemma scored_length (store : FAISS) (v : Vector) :
  List.length (scored store v) = List.length (entries store).
Proof. unfold scored. apply length_map. Qed.

(** ** The prompt *)

Lemma decline_instruction_in_head : substring_of decline_instruction prompt_head.
Proof.
  exists (join newline
            [ "";
              "Human: Use the following pieces of context to provide a ";
              "concise answer to the question at the end but summarize with ";
              "at least 250 words with detailed explanations. " ]),
         (join newline [ ""; "<context>"; "" ]).
  vm_compute. reflexivity.
Qed.

Lemma decline_instruction_in_rendered (context question : string) :
  substring_of decline_instruction (rendered context question).
Proof.
  unfold rendered. apply substring_of_append_r, decline_instruction_in_head.
Qed.

Lemma text_in_rendered (docs : RetrievalResult) (question : string) (d : Chunk * Q) :
  In d docs -> substring_of (text (fst d)) (rendered (context_block docs) question).
Proof.
  intros Hin. unfold rendered.
  apply substring_of_append_l, substring_of_append_r.
  unfold context_block. apply join_elem_substring.
  apply (in_map (fun d : Chunk * Q => text (fst d))), Hin.
Qed.

(** C1: prompt assembly is a function of the retrieval result and the
    question alone: the prompt is the template with the context block
    and the question put in, two assemblies of the same inputs give the
    same text, the texts of the retrieved chunks occur in the context
    block verbatim, one after the other in retrieval order, each is a
    piece of the prompt, and this prompt is what the chain of
    [get_response_llm] sends to the model for the chunks it retrieved. *)
Theorem prompt_assembly_grounded (docs : RetrievalResult) (question : string) :
  assemble PROMPT docs question = Ok (rendered (context_block docs) question)
  /\ (forall p1 p2 : string,
        assemble PROMPT docs question = Ok p1 ->
        assemble PROMPT docs question = Ok p2 -> p1 = p2)
  /\ occur_in_order (map (fun d : Chunk * Q => text (fst d)) docs) (context_block docs)
  /\ Forall (fun d : Chunk * Q =>
               substring_of (text (fst d)) (rendered (context_block docs) question)) docs
  /\ (forall (l : Bedrock) (store : FAISS) (w : World) (v : Vector),
        provider_embed (embeddings_model_id (embedding_function store)) question = Reply v ->
        search store v 3 = Ok docs ->
        requests (snd (get_response_llm l store question w)) =
        requests w ++
          [ EmbedRequest (embeddings_model_id (embedding_function store)) question;
            GenerateRequest (model_id l) (rendered (context_block docs) question)
              (model_kwargs l) ]).
Proof.
  split; [apply assemble_prompt|].
  split; [intros p1 p2 H1 H2; congruence|].
  split.
  { unfold context_block.
    rewrite <- (append_nil_l (join _ _)). apply join_occur_in_order. }
  split.
  { apply List.Forall_forall. intros d Hd. now apply text_in_rendered. }
  intros l store w v Hv Hdocs.
  rewrite get_response_llm_run. simpl. rewrite Hv.
  unfold search in Hdocs. simpl in Hdocs. injection Hdocs as <-.
  destruct (provider_generate _ _ _); simpl; now rewrite <- app_assoc.
Qed.

(** C7: with an empty retrieval result the context block is empty, the
    prompt is the template with nothing between its context tags, and
    the instruction to decline stands in it, as it does in the prompt of
    every retrieval result and question. *)
Theorem empty_retrieval_keeps_decline_instruction (question : string) :
  context_block [] = ""
  /\ assemble PROMPT [] question = Ok (rendered "" question)
  /\ (exists before after,
        rendered "" question =
        before +:+ "<context>" +:+ newline +:+ "" +:+ newline +:+ "</context>" +:+ after)
  /\ substring_of decline_instruction (rendered "" question)
  /\ (forall (docs : RetrievalResult) (q : string),
        exists p, assemble PROMPT docs q = Ok p /\ substring_of decline_instruction p).
Proof.
  split; [reflexivity|].
  split; [apply (assemble_prompt [])|].
  split.
  { exists (join newline
              [ "";
                "Human: Use the following pieces of context to provide a ";
                "concise answer to the question at the end but summarize with ";
                "at least 250 words with detailed explanations. If you don't know the answer, ";
                "just say that you don't know, don't try to make up an answer.";
                "" ]),
           (join newline [ ""; ""; "Question: " ] +:+ question +:+ prompt_tail).
    unfold rendered.
    change prompt_head with
      (join newline
         [ "";
           "Human: Use the following pieces of context to provide a ";
           "concise answer to the question at the end but summarize with ";
           "at least 250 words with detailed explanations. If you don't know the answer, ";
           "just say that you don't know, don't try to make up an answer.";
           "" ] +:+ "<context>" +:+ newline).
    change prompt_middle with
      (newline +:+ "</context>" +:+ join newline [ ""; ""; "Question: " ]).
    now rewrite !append_assoc. }
  split; [apply decline_instruction_in_rendered|].
  intros docs q. exists (rendered (context_block docs) q).
  split; [apply assemble_prompt | apply decline_instruction_in_rendered].
Qed.

(** ** Running [main] *)

Lemma bind_run {A B : Type} (c : M A) (k : A -> M B) (w : World) :
  (c ≫= k) w =
  match c w with
  | (Ok a, w') => k a w'
  | (Err e, w') => (Err e, w')
  end.
Proof. reflexivity. Qed.

Lemma mret_run {A : Type} (a : A) (w : World) : (mret a : M A) w = (Ok a, w).
Proof. reflexivity. Qed.

Lemma st_emit_run (x : Widget) (w : World) : st_emit x w = (Ok tt, show x w).
Proof. reflexivity. Qed.

Lemma st_text_input_run (label : string) (w : World) :
  st_text_input label w = (Ok (typed_question (session w)), show (TextInput label) w).
Proof. reflexivity. Qed.

Lemma st_button_run (label : string) (w : World) :
  st_button label w =
  (Ok (if String.eqb label "Store Vector" then store_vector_pressed (session w)
       else if String.eqb label "Send" then send_pressed (session w)
       else false),
   show (Button label) w).
Proof. reflexivity. Qed.

Lemma FAISS_load_local_cases (path : string) (e : BedrockEmbeddings) (allow : bool) (w : World) :
  FAISS_load_local path e allow w =
  match disk w !! path with
  | None => (Err (IndexLoadError "no index at this path"), w)
  | Some blob =>
      if allow then (Ok (restored e blob), w)
      else if negb (header_ok (header blob) e) then (Err (IndexLoadError "header"), w)
      else if negb (payload_ok (header blob) (payload blob)) then (Err (IndexLoadError "payload"), w)
      else (Ok (restored e blob), w)
  end.
Proof.
  unfold FAISS_load_local. rewrite bind_run. unfold get_world.
  destruct (disk w !! path) as [blob|]; [|reflexivity].
  destruct allow; [reflexivity|].
  destruct (negb (header_ok _ _)); [reflexivity|].
  now destruct (negb (payload_ok _ _)).
Qed.

(** A run in which only "Send" was pressed: the index is loaded from
    "faiss_index", the chain answers the typed question, and its text is
    written to the page; a failure of the load or of the chain ends the
    run with nothing written. *)
Lemma main_send_run (w : World) :
  store_vector_pressed (session w) = false ->
  send_pressed (session w) = true ->
  main w =
  let w1 := shown (page_frame ++ [Spinner "Processing..."]) w in
  match disk w !! "faiss_index" with
  | None => (Err (IndexLoadError "no index at this path"), w1)
  | Some blob =>
      match get_response_llm get_llm (restored bedrock_embeddings blob)
              (typed_question (session w)) w1 with
      | (Ok t, w2) => (Ok tt, show (Written t) w2)
      | (Err e, w2) => (Err e, w2)
      end
  end.
Proof.
  intros Hstore Hsend. unfold main.
  unfold st_set_page_config, st_header, st_title, st_spinner, st_write.
  do 2 (rewrite bind_run, st_emit_run; cbv beta iota).
  rewrite bind_run, st_text_input_run; cbv beta iota.
  rewrite bind_run, st_emit_run; cbv beta iota.
  rewrite bind_run, st_button_run; cbv beta iota.
  rewrite String.eqb_refl. cbn [session show shown]. rewrite Hstore.
  rewrite bind_run, mret_run; cbv beta iota.
  rewrite bind_run, st_button_run; cbv beta iota.
  change ("Send" =? "Store Vector")%string with false.
  rewrite String.eqb_refl. cbn [session show]. rewrite Hsend. cbv beta iota.
  rewrite bind_run, st_emit_run; cbv beta iota.
  rewrite bind_run, FAISS_load_local_cases. cbn [disk show].
  destruct (disk w !! "faiss_index") as [blob|]; [|reflexivity].
  cbv beta iota zeta. rewrite bind_run.
  cbn [typed_question session show page_frame shown fold_left app].
  destruct (get_response_llm _ _ _ _) as [[t|e] w2]; reflexivity.
Qed.

Lemma shown_screen (xs : list Widget) (w : World) :
  screen (shown xs w) = screen w ++ xs.
Proof.
  revert w. induction xs as [|x xs IH]; intros w; simpl.
  - now rewrite app_nil_r.
  - unfold shown in IH. rewrite IH. simpl. now rewrite <- app_assoc.
Qed.

Lemma get_response_llm_screen (l : Bedrock) (store : FAISS) (question : string) (w : World) :
  screen (snd (get_response_llm l store question w)) = screen w.
Proof.
  rewrite get_response_llm_run. simpl.
  destruct (provider_embed _ _); [|reflexivity].
  now destruct (provider_generate _ _ _).
Qed.

(** ** The answering pipeline *)

(** C4, as the code has it: when the chain reaches its end its answer
    holds the generated text and, under ["source_documents"], the three
    best entries of the index it was grounded on; [get_response_llm]
    returns the text of that answer alone, and a failure of the chain is
    its failure. *)
Theorem response_is_the_text_of_the_answer
    (l : Bedrock) (store : FAISS) (question : string) (w : World) :
  let qa :=
    RetrievalQA_from_chain_type l "stuff"
      (as_retriever store "similarity" {[ "k" := 3%Z ]}) true PROMPT in
  match RetrievalQA_call qa question w with
  | (Ok answer, w') =>
      get_response_llm l store question w = (Ok (answer_result answer), w')
      /\ query answer = question
      /\ exists v,
           provider_embed (embeddings_model_id (embedding_function store)) question = Reply v
           /\ source_documents answer = Some (take 3 (rank (scored store v)))
           /\ provider_generate (model_id l)
                (rendered (context_block (take 3 (rank (scored store v)))) question)
                (model_kwargs l) = Reply (answer_result answer)
  | (Err e, w') => get_response_llm l store question w = (Err e, w')
  end.
Proof.
  intros qa. subst qa.
  rewrite get_response_llm_run, chain_run. cbv zeta.
  destruct (provider_embed _ _) as [v|msg] eqn:Hv; [|reflexivity].
  destruct (provider_generate _ _ _) as [t|msg] eqn:Ht; [|reflexivity].
  simpl. repeat split. exists v. now repeat split.
Qed.

(** C8: a question is answered completely or not at all. In
    [get_response_llm] a refusal of the embedding model ends the call
    with [EmbeddingError] and the provider's message before any prompt is
    sent, a refusal of the language model ends it with [GenerationError]
    and the provider's message, and otherwise the model's text is
    returned. In a run of [main] where "Send" was pressed on a stored
    index, the text is written to the page when the call succeeds, and
    when it fails the run fails with the same exception and writes
    nothing. *)
Theorem answer_is_all_or_nothing (w : World) (blob : Blob) :
  store_vector_pressed (session w) = false ->
  send_pressed (session w) = true ->
  disk w !! "faiss_index" = Some blob ->
  (forall (l : Bedrock) (store : FAISS) (question : string) (w0 : World),
     let model := embeddings_model_id (embedding_function store) in
     let prompt_of (v : Vector) := rendered (context_block (take 3 (rank (scored store v)))) question in
     (forall msg, provider_embed model question = Refusal msg ->
        get_response_llm l store question w0 =
        (Err (EmbeddingError msg), record_request (EmbedRequest model question) w0))
     /\ (forall v msg, provider_embed model question = Reply v ->
           provider_generate (model_id l) (prompt_of v) (model_kwargs l) = Refusal msg ->
           fst (get_response_llm l store question w0) = Err (GenerationError msg))
     /\ (forall v t, provider_embed model question = Reply v ->
           provider_generate (model_id l) (prompt_of v) (model_kwargs l) = Reply t ->
           fst (get_response_llm l store question w0) = Ok t)
     /\ ((exists t, fst (get_response_llm l store question w0) = Ok t)
         \/ (exists msg, fst (get_response_llm l store question w0) = Err (EmbeddingError msg))
         \/ (exists msg, fst (get_response_llm l store question w0) = Err (GenerationError msg))))
  /\ let w1 := shown (page_frame ++ [Spinner "Processing..."]) w in
     match get_response_llm get_llm (restored bedrock_embeddings blob)
             (typed_question (session w)) w1 with
     | (Ok t, w2) =>
         main w = (Ok tt, show (Written t) w2)
         /\ screen (snd (main w)) =
            screen w ++ page_frame ++ [Spinner "Processing..."; Written t]
     | (Err e, w2) =>
         main w = (Err e, w2)
         /\ screen (snd (main w)) = screen w ++ page_frame ++ [Spinner "Processing..."]
     end.
Proof.
  intros Hstore Hsend Hblob. split.
  - intros l store question w0 model prompt_of. subst model prompt_of.
    split; [|split; [|split]].
    + intros msg Hm. rewrite get_response_llm_run. cbv zeta. now rewrite Hm.
    + intros v msg Hv Hm. rewrite get_response_llm_run. cbv zeta. now rewrite Hv, Hm.
    + intros v t Hv Ht. rewrite get_response_llm_run. cbv zeta. now rewrite Hv, Ht.
    + rewrite get_response_llm_run. cbv zeta.
      destruct (provider_embed _ _) as [v|msg]; [|right; left; now exists msg].
      destruct (provider_generate _ _ _) as [t|msg];
        [left; now exists t | right; right; now exists msg].
  - cbv zeta. rewrite (main_send_run w Hstore Hsend). cbv zeta. rewrite Hblob.
    pose proof (get_response_llm_screen get_llm
                  (restored bedrock_embeddings blob)
                  (typed_question (session w))
                  (shown (page_frame ++ [Spinner "Processing..."]) w)) as Hscreen.
    destruct (get_response_llm _ _ _ _) as [[t|e] w2]; cbn [snd show screen] in Hscreen |- *;
      (split; [reflexivity|]); rewrite Hscreen, shown_screen.
    + now rewrite <- !app_assoc.
    + reflexivity.
Qed.

(** C9: whatever the caller passes to [get_response_llm] (model, store,
    question), the retriever searches the store with [k = 3]: the
    documents under the answer, and in the prompt, are the first three
    of the ranking, all of them when the store holds fewer. *)
Theorem retrieval_count_is_three
    (l : Bedrock) (store : FAISS) (question : string) (w : World) :
  match provider_embed (embeddings_model_id (embedding_function store)) question with
  | Refusal msg => fst (get_response_llm l store question w) = Err (EmbeddingError msg)
  | Reply v =>
      exists docs,
        search store v 3 = Ok docs
        /\ List.length docs = Nat.min 3 (List.length (entries store))
        /\ get_relevant_documents (as_retriever store "similarity" {[ "k" := 3%Z ]}) question w
           = (Ok docs, record_request
                         (EmbedRequest (embeddings_model_id (embedding_function store)) question) w)
        /\ requests (snd (get_response_llm l store question w)) =
           requests w ++
             [ EmbedRequest (embeddings_model_id (embedding_function store)) question;
               GenerateRequest (model_id l) (rendered (context_block docs) question)
                 (model_kwargs l) ]
  end.
Proof.
  rewrite get_response_llm_run. cbv zeta.
  destruct (provider_embed _ _) as [v|msg] eqn:Hv; [|reflexivity].
  exists (take 3 (rank (scored store v))).
  split; [reflexivity|].
  split. { now rewrite length_take, rank_length, scored_length. }
  split.
  { unfold get_relevant_documents, as_retriever. simpl.
    rewrite lookup_singleton_eq. simpl.
    rewrite bind_run, embed_query_run, Hv. reflexivity. }
  destruct (provider_generate _ _ _); simpl; now rewrite <- app_assoc.
Qed.

(** ** Building, saving and loading the index *)

Lemma embed_chunks_frame (e : BedrockEmbeddings) (chunks : list Chunk) (w : World) :
  let w' := snd (embed_chunks e chunks w) in
  directories w' = directories w /\ disk w' = disk w
  /\ session w' = session w /\ screen w' = screen w
  /\ exists sent : list Request,
       requests w' = requests w ++ sent /\ Forall is_embed_request sent.
Proof.
  revert w. induction chunks as [|c cs IH]; intros w.
  { cbn. repeat split. exists []. now rewrite app_nil_r. }
  cbn [embed_chunks]. rewrite bind_run, embed_query_run.
  set (w1 := record_request (EmbedRequest (embeddings_model_id e) (text c)) w).
  assert (Hone : directories w1 = directories w /\ disk w1 = disk w
                 /\ session w1 = session w /\ screen w1 = screen w
                 /\ exists sent : list Request,
                      requests w1 = requests w ++ sent /\ Forall is_embed_request sent).
  { repeat split. exists [EmbedRequest (embeddings_model_id e) (text c)].
    split; [reflexivity|]. now repeat constructor. }
  destruct (provider_embed _ _) as [v|msg]; [|exact Hone].
  rewrite bind_run.
  destruct (List.length v =? _)%nat; [|exact Hone].
  rewrite mret_run, bind_run.
  specialize (IH w1). cbv zeta in IH.
  assert (Hrest : directories (snd (embed_chunks e cs w1)) = directories w
                  /\ disk (snd (embed_chunks e cs w1)) = disk w
                  /\ session (snd (embed_chunks e cs w1)) = session w
                  /\ screen (snd (embed_chunks e cs w1)) = screen w
                  /\ exists sent : list Request,
                       requests (snd (embed_chunks e cs w1)) = requests w ++ sent
                       /\ Forall is_embed_request sent).
  { destruct IH as (Hd & Hk & Hs & Hp & sent & Hr & Hall).
    repeat split; try assumption.
    exists (EmbedRequest (embeddings_model_id e) (text c) :: sent). split.
    - rewrite Hr. subst w1. cbn [requests record_request]. now rewrite <- app_assoc.
    - now constructor. }
  destruct (embed_chunks e cs w1) as [[es|err] w2]; exact Hrest.
Qed.

Lemma embed_chunks_dimensions (e : BedrockEmbeddings) (chunks : list Chunk) (w : World)
    (es : list (Chunk * Vector)) :
  fst (embed_chunks e chunks w) = Ok es ->
  forallb (fun x : Chunk * Vector =>
             (List.length (snd x) =? provider_dimension (embeddings_model_id e))%nat) es = true
  /\ map fst es = chunks.
Proof.
  revert w es. induction chunks as [|c cs IH]; intros w es.
  - simpl. intros [= <-]. now split.
  - cbn [embed_chunks]. rewrite bind_run, embed_query_run.
    destruct (provider_embed _ _) as [v|msg]; [|discriminate].
    rewrite bind_run.
    destruct (List.length v =? _)%nat eqn:Hdim; [|discriminate].
    rewrite mret_run, bind_run.
    specialize (IH (record_request (EmbedRequest (embeddings_model_id e) (text c)) w)).
    destruct (embed_chunks e cs _) as [[es'|err] w2]; [|discriminate].
    rewrite mret_run. intros [= <-].
    destruct (IH es' eq_refl) as [IH1 IH2].
    split; simpl; [now rewrite Hdim, IH1 | now rewrite IH2].
Qed.

Lemma get_vector_store_run (docs : list Chunk) (w : World) :
  get_vector_store docs w =
  match FAISS_from_documents docs bedrock_embeddings w with
  | (Ok store, w') => (Ok tt, store_file "faiss_index" (persisted store) w')
  | (Err e, w') => (Err e, w')
  end.
Proof.
  unfold get_vector_store. rewrite bind_run.
  now destruct (FAISS_from_documents _ _ _) as [[store|e] w'].
Qed.

Lemma FAISS_from_documents_run (docs : list Chunk) (e : BedrockEmbeddings) (w : World) :
  FAISS_from_documents docs e w =
  match embed_chunks e docs w with
  | (Ok es, w') =>
      (Ok {| embedding_function := e;
             dimension := provider_dimension (embeddings_model_id e);
             entries := es |}, w')
  | (Err err, w') => (Err err, w')
  end.
Proof.
  unfold FAISS_from_documents. rewrite bind_run.
  now destruct (embed_chunks _ _ _) as [[es|err] w'].
Qed.

Lemma get_response_llm_fst (l : Bedrock) (store : FAISS) (question : string) (w w' : World) :
  fst (get_response_llm l store question w) = fst (get_response_llm l store question w').
Proof.
  rewrite !get_response_llm_run. cbv zeta.
  destruct (provider_embed _ _); [|reflexivity].
  now destruct (provider_generate _ _ _).
Qed.

(** C10: [get_vector_store] returns nothing: all it leaves behind is
    the blob of the store it built at "faiss_index" and the embedding
    requests it sent (the other paths, the documents, the session and the
    page are as before, and a failed build leaves the disk as it was). A
    run of [main] that answers a question loads its index from
    "faiss_index": it fails when nothing is there, and otherwise its
    outcome is that of [get_response_llm] on the store restored from the
    file at that path; so two worlds that agree on that file and on the
    session give the same outcome and the same output on the page. And
    the built store reaches a later request through that file: the run
    that answers after a successful [get_vector_store] answers from the
    store that was built. *)
Theorem index_travels_through_the_disk (docs : list Chunk) (w w1 w2 : World) :
  session w1 = session w2 ->
  store_vector_pressed (session w1) = false ->
  send_pressed (session w1) = true ->
  disk w1 !! "faiss_index" = disk w2 !! "faiss_index" ->
  (let r := get_vector_store docs w in
   directories (snd r) = directories w
   /\ session (snd r) = session w
   /\ screen (snd r) = screen w
   /\ (exists sent : list Request,
         requests (snd r) = requests w ++ sent /\ Forall is_embed_request sent)
   /\ (forall path : string, path <> "faiss_index" -> disk (snd r) !! path = disk w !! path)
   /\ match FAISS_from_documents docs bedrock_embeddings w with
      | (Ok store, _) =>
          fst r = Ok tt /\ disk (snd r) = <["faiss_index" := persisted store]> (disk w)
      | (Err e, _) => fst r = Err e /\ disk (snd r) = disk w
      end)
  /\ fst (main w1) = fst (main w2)
  /\ (exists out : list Widget,
        screen (snd (main w1)) = screen w1 ++ out
        /\ screen (snd (main w2)) = screen w2 ++ out)
  /\ main w1 =
     match disk w1 !! "faiss_index" with
     | None =>
         (Err (IndexLoadError "no index at this path"),
          shown (page_frame ++ [Spinner "Processing..."]) w1)
     | Some blob =>
         match get_response_llm get_llm (restored bedrock_embeddings blob)
                 (typed_question (session w1))
                 (shown (page_frame ++ [Spinner "Processing..."]) w1) with
         | (Ok t, w') => (Ok tt, show (Written t) w')
         | (Err e, w') => (Err e, w')
         end
     end
  /\ match FAISS_from_documents docs bedrock_embeddings w with
     | (Ok store, _) =>
         forall s : Session,
           store_vector_pressed s = false ->
           send_pressed s = true ->
           let w' := with_session s (snd (get_vector_store docs w)) in
           disk w' !! "faiss_index" = Some (persisted store)
           /\ main w' =
              match get_response_llm get_llm store (typed_question s)
                      (shown (page_frame ++ [Spinner "Processing..."]) w') with
              | (Ok t, w'') => (Ok tt, show (Written t) w'')
              | (Err e, w'') => (Err e, w'')
              end
     | (Err _, _) =>
         disk (snd (get_vector_store docs w)) !! "faiss_index" = disk w !! "faiss_index"
     end.
Proof.
  intros Hsession Hstore Hsend Hdisk.
  assert (Hlink :
            match FAISS_from_documents docs bedrock_embeddings w with
            | (Ok store, _) =>
                forall s : Session,
                  store_vector_pressed s = false ->
                  send_pressed s = true ->
                  let w' := with_session s (snd (get_vector_store docs w)) in
                  disk w' !! "faiss_index" = Some (persisted store)
                  /\ main w' =
                     match get_response_llm get_llm store (typed_question s)
                             (shown (page_frame ++ [Spinner "Processing..."]) w') with
                     | (Ok t, w'') => (Ok tt, show (Written t) w'')
                     | (Err e, w'') => (Err e, w'')
                     end
            | (Err _, _) =>
                disk (snd (get_vector_store docs w)) !! "faiss_index" = disk w !! "faiss_index"
            end).
  { rewrite get_vector_store_run, FAISS_from_documents_run.
    pose proof (embed_chunks_frame bedrock_embeddings docs w) as Hframe.
    destruct (embed_chunks _ _ _) as [[es|err] w0]; cbn [snd] in Hframe |- *.
    - intros s Hs Hs'. cbv zeta.
      assert (Hfile : disk (with_session s
                              (store_file "faiss_index"
                                 (persisted
                                    {| embedding_function := bedrock_embeddings;
                                       dimension := provider_dimension
                                                      (embeddings_model_id bedrock_embeddings);
                                       entries := es |}) w0)) !! "faiss_index"
                      = Some (persisted
                                {| embedding_function := bedrock_embeddings;
                                   dimension := provider_dimension
                                                  (embeddings_model_id bedrock_embeddings);
                                   entries := es |})).
      { cbn [disk with_session store_file]. apply lookup_insert_eq. }
      split; [exact Hfile|].
      rewrite main_send_run by assumption. cbv zeta. rewrite Hfile. reflexivity.
    - destruct Hframe as (_ & Hk & _). now rewrite Hk. }
  pose proof (main_send_run w1 Hstore Hsend) as Hrun. cbv zeta in Hrun.
  cut (forall A B C D : Prop, A /\ B /\ C -> D -> A /\ B /\ C /\ D); [|tauto].
  intros Hjoin. apply Hjoin; [|exact (conj Hrun Hlink)].
  clear Hlink Hrun Hjoin. split.
  - cbv zeta. rewrite get_vector_store_run, FAISS_from_documents_run.
    pose proof (embed_chunks_frame bedrock_embeddings docs w) as Hframe.
    cbv zeta in Hframe.
    destruct (embed_chunks _ _ _) as [[es|err] w']; cbn [fst snd] in Hframe |- *;
      destruct Hframe as (Hd & Hk & Hs & Hp & Hr).
    + cbn [directories session screen disk requests store_file].
      repeat split; try assumption.
      * intros path Hpath. rewrite lookup_insert_ne by congruence. now rewrite Hk.
      * now rewrite Hk.
    + repeat split; try assumption. intros path _. now rewrite Hk.
  - assert (Hstore2 : store_vector_pressed (session w2) = false) by now rewrite <- Hsession.
    assert (Hsend2 : send_pressed (session w2) = true) by now rewrite <- Hsession.
    rewrite (main_send_run w1 Hstore Hsend), (main_send_run w2 Hstore2 Hsend2).
    cbv zeta. rewrite <- Hdisk, <- Hsession.
    destruct (disk w1 !! "faiss_index") as [blob|].
    + pose proof (get_response_llm_fst get_llm (restored bedrock_embeddings blob)
                    (typed_question (session w1))
                    (shown (page_frame ++ [Spinner "Processing..."]) w1)
                    (shown (page_frame ++ [Spinner "Processing..."]) w2)) as Hfst.
      pose proof (get_response_llm_screen get_llm (restored bedrock_embeddings blob)
                    (typed_question (session w1))
                    (shown (page_frame ++ [Spinner "Processing..."]) w1)) as Hs1.
      pose proof (get_response_llm_screen get_llm (restored bedrock_embeddings blob)
                    (typed_question (session w1))
                    (shown (page_frame ++ [Spinner "Processing..."]) w2)) as Hs2.
      destruct (get_response_llm _ _ _ (shown _ w1)) as [[t1|e1] u1];
        destruct (get_response_llm _ _ _ (shown _ w2)) as [[t2|e2] u2];
        cbn [fst snd] in Hfst, Hs1, Hs2 |- *; try discriminate.
      * injection Hfst as <-. split; [reflexivity|].
        exists (page_frame ++ [Spinner "Processing..."; Written t1]).
        cbn [screen show]. rewrite Hs1, Hs2, !shown_screen.
        now rewrite <- !app_assoc.
      * injection Hfst as <-. split; [reflexivity|].
        exists (page_frame ++ [Spinner "Processing..."]).
        now rewrite Hs1, Hs2, !shown_screen.
    + split; [reflexivity|].
      exists (page_frame ++ [Spinner "Processing..."]).
      cbn [snd]. now rewrite !shown_screen.
Qed.

Lemma within_tolerance_refl (r : RetrievalResult) (eps : Q) :
  (0 <= eps)%Q ->
  Forall2 (fun a b : Chunk * Q => fst a = fst b /\ (Qabs (snd a - snd b) <= eps)%Q) r r.
Proof.
  intros Heps. induction r as [|x r IH]; constructor; [|exact IH].
  split; [reflexivity|].
  assert (Hz : (snd x - snd x == 0)%Q) by (unfold Qminus; apply Qplus_opp_r).
  rewrite Hz. exact Heps.
Qed.

(** C2: when [get_vector_store] has built a store from the chunks and
    saved it, loading "faiss_index" gives that store back, with or
    without the dangerous deserialization: the loaded index has the same
    (chunk, vector) entries, and for every query vector and [k] its
    search result is that of the index before the save: the same chunks
    in the same order with the same scores (within every tolerance). A
    failed build saves nothing. Any store saved to any path loads back
    from that path. *)
Theorem save_then_load_round_trip (docs : list Chunk) (w : World) :
  match FAISS_from_documents docs bedrock_embeddings w with
  | (Err e, w0) => get_vector_store docs w = (Err e, w0) /\ disk w0 = disk w
  | (Ok store, w0) =>
      let w' := store_file "faiss_index" (persisted store) w0 in
      get_vector_store docs w = (Ok tt, w')
      /\ (forall allow : bool,
            FAISS_load_local "faiss_index" bedrock_embeddings allow w' = (Ok store, w'))
      /\ (forall (allow : bool) (loaded : FAISS),
            fst (FAISS_load_local "faiss_index" bedrock_embeddings allow w') = Ok loaded ->
            entries loaded = entries store
            /\ forall (query_vector : Vector) (k : Z),
                 search loaded query_vector k = search store query_vector k
                 /\ forall (r1 r2 : RetrievalResult) (eps : Q),
                      (0 <= eps)%Q ->
                      search store query_vector k = Ok r1 ->
                      search loaded query_vector k = Ok r2 ->
                      Forall2 (fun a b : Chunk * Q =>
                                 fst a = fst b /\ (Qabs (snd a - snd b) <= eps)%Q) r1 r2)
  end
  /\ (forall (store : FAISS) (path : string) (w0 : World),
        FAISS_load_local path (embedding_function store) true
          (snd (FAISS_save_local store path w0))
        = (Ok store, snd (FAISS_save_local store path w0))).
Proof.
  split.
  - rewrite get_vector_store_run, FAISS_from_documents_run.
    pose proof (embed_chunks_dimensions bedrock_embeddings docs w) as Hdims.
    pose proof (embed_chunks_frame bedrock_embeddings docs w) as Hframe.
    destruct (embed_chunks _ _ _) as [[es|err] w0]; cbn [fst snd] in Hdims, Hframe |- *.
    2:{ split; [reflexivity|]. now destruct Hframe as (_ & Hk & _). }
    destruct (Hdims es eq_refl) as [Hlen _].
    set (store := {| embedding_function := bedrock_embeddings;
                     dimension := provider_dimension (embeddings_model_id bedrock_embeddings);
                     entries := es |}).
    assert (Hload : forall allow : bool,
               FAISS_load_local "faiss_index" bedrock_embeddings allow
                 (store_file "faiss_index" (persisted store) w0)
               = (Ok store, store_file "faiss_index" (persisted store) w0)).
    { intros allow. rewrite FAISS_load_local_cases.
      cbn [disk store_file]. rewrite lookup_insert_eq.
      destruct allow; [reflexivity|].
      unfold header_ok, payload_ok. cbn [persisted header payload format_version metric_id
                                           vector_dimension dimension entries store].
      rewrite Nat.eqb_refl, String.eqb_refl, Nat.eqb_refl, Hlen. reflexivity. }
    split; [reflexivity|]. split; [exact Hload|].
    intros allow loaded Hloaded. rewrite Hload in Hloaded.
    cbn [fst] in Hloaded. injection Hloaded as <-.
    split; [reflexivity|]. intros qv k. split; [reflexivity|].
    intros r1 r2 eps Heps H1 H2. rewrite H1 in H2. injection H2 as <-.
    now apply within_tolerance_refl.
  - intros store path w0. rewrite FAISS_load_local_cases.
    unfold FAISS_save_local, write_file. cbn [snd disk store_file].
    rewrite lookup_insert_eq. now destruct store.
Qed.


(** ** The chunker *)

Lemma substring_length (s : string) (n m : nat) :
  n + m <= String.length s -> String.length (String.substring n m s) = m.
Proof.
  revert n m. induction s as [|c s IH]; intros n m Hle; simpl in Hle.
  - assert (n = 0) as -> by lia. assert (m = 0) as -> by lia. reflexivity.
  - destruct n as [|n]; simpl.
    + destruct m as [|m]; [reflexivity|]. simpl. rewrite IH; [reflexivity | lia].
    + apply IH. lia.
Qed.

Lemma substring_substring (s : string) (n m p q : nat) :
  p + q <= m ->
  String.substring p q (String.substring n m s) = String.substring (n + p) q s.
Proof.
  revert n m p q. induction s as [|c s IH]; intros n m p q Hle.
  - destruct n, m; simpl; destruct p, q; reflexivity.
  - destruct n as [|n]; simpl.
    + destruct m as [|m].
      * assert (p = 0) as -> by lia. assert (q = 0) as -> by lia. reflexivity.
      * destruct p as [|p]; simpl.
        -- destruct q as [|q]; [reflexivity|].
           f_equal. rewrite (IH 0 m 0 q) by lia. reflexivity.
        -- rewrite (IH 0 m p q) by lia. reflexivity.
    + apply IH, Hle.
Qed.

Lemma lookup_map {A B : Type} (f : A -> B) (l : list A) (n : nat) :
  map f l !! n = f <$> (l !! n).
Proof.
  revert n. induction l as [|x l IH]; intros [|n]; simpl; try reflexivity. apply IH.
Qed.

(** The windows start where asked, stay inside the text, are full
    ([max_size] long) or end with the text, cover every position from
    [start] on, and each full window is followed by one that starts
    [step] later and ends later. *)
Lemma windows_spec (fuel len start m step : nat) :
  1 <= step <= m -> start < len -> len - start <= fuel ->
  (exists b rest, windows fuel len start m step = (start, b) :: rest)
  /\ Forall (fun w : nat * nat =>
               start <= fst w /\ fst w < snd w <= len
               /\ (snd w = len \/ snd w = fst w + m) /\ snd w - fst w <= m)
       (windows fuel len start m step)
  /\ (forall i, start <= i < len ->
        Exists (fun w : nat * nat => fst w <= i < snd w) (windows fuel len start m step))
  /\ (forall n w1 w2,
        windows fuel len start m step !! n = Some w1 ->
        windows fuel len start m step !! S n = Some w2 ->
        snd w1 = fst w1 + m /\ fst w2 = fst w1 + step /\ snd w1 < snd w2).
Proof.
  revert start. induction fuel as [|fuel IH]; intros start Hstep Hstart Hfuel; [lia|].
  cbn [windows]. destruct (len <=? start + m)%nat eqn:Hend.
  - apply Nat.leb_le in Hend. split; [now eexists _, _|]. split; [|split].
    + constructor; [|constructor]. cbn [fst snd]. lia.
    + intros i Hi. constructor. cbn [fst snd]. lia.
    + intros [|n] w1 w2 H1 H2; discriminate.
  - apply Nat.leb_gt in Hend.
    destruct (IH (start + step)) as ((b & rest & Hhead) & Hall & Hcover & Hnext); [lia..|].
    split; [now eexists _, _|]. split; [|split].
    + constructor; [cbn [fst snd]; lia|].
      eapply Forall_impl; [exact Hall|]. cbn beta. intros w Hw. lia.
    + intros i Hi. destruct (Nat.lt_ge_cases i (start + step)) as [Hlt|Hge].
      * apply Exists_cons_hd. cbn [fst snd]. lia.
      * apply Exists_cons_tl, Hcover. lia.
    + intros [|n] w1 w2 H1 H2.
      * cbn in H1. injection H1 as <-. cbn in H2. rewrite Hhead in H2, Hall.
        cbn in H2. injection H2 as <-. cbn [fst snd].
        apply Forall_inv in Hall. cbn [fst snd] in Hall. lia.
      * cbn in H1, H2. eapply Hnext; eassumption.
Qed.

Lemma chunk_valid (document : Document) (max_size overlap : Z) :
  (0 < max_size)%Z -> (0 <= overlap < max_size)%Z ->
  chunk document max_size overlap =
  Ok (if (String.length (page_content document) =? 0)%nat then []
      else map (fun w : nat * nat =>
                  {| source_document_id := (source document, page document);
                     start_offset := fst w;
                     end_offset := snd w;
                     text := slice (page_content document) (fst w) (snd w) |})
             (windows (String.length (page_content document))
                (String.length (page_content document)) 0
                (Z.to_nat max_size) (Z.to_nat max_size - Z.to_nat overlap))).
Proof.
  intros Hm Ho. unfold chunk.
  destruct (max_size <=? 0)%Z eqn:H1; [apply Z.leb_le in H1; lia|].
  destruct (overlap <? 0)%Z eqn:H2; [apply Z.ltb_lt in H2; lia|].
  destruct (max_size <=? overlap)%Z eqn:H3; [apply Z.leb_le in H3; lia|].
  cbn [orb]. now destruct (String.length (page_content document) =? 0)%nat.
Qed.

Lemma substring_all (s : string) : String.substring 0 (String.length s) s = s.
Proof. induction s as [|c s IH]; [reflexivity|]. cbn. now rewrite IH. Qed.

(** A document that fits into one window is one chunk, the whole text. *)
Lemma chunk_short_document (document : Document) (max_size overlap : Z) :
  (0 < max_size)%Z -> (0 <= overlap < max_size)%Z ->
  0 < String.length (page_content document) <= Z.to_nat max_size ->
  chunk document max_size overlap =
  Ok [ {| source_document_id := (source document, page document);
          start_offset := 0;
          end_offset := String.length (page_content document);
          text := page_content document |} ].
Proof.
  intros Hm Ho Hlen. rewrite chunk_valid by assumption.
  destruct (String.length (page_content document)) as [|n] eqn:Hn; [lia|].
  cbn [Nat.eqb windows]. rewrite Nat.add_0_l.
  destruct (S n <=? Z.to_nat max_size)%nat eqn:Hle; [|apply Nat.leb_gt in Hle; lia].
  cbn [map fst snd]. unfold slice. rewrite Nat.sub_0_r, <- Hn, substring_all. reflexivity.
Qed.

Lemma get_lt (s : string) (i : nat) (c : ascii) :
  String.get i s = Some c -> i < String.length s.
Proof.
  revert i. induction s as [|x s IH]; intros i; simpl; [discriminate|].
  destruct i as [|i]; [lia|]. intros Hi. apply IH in Hi. lia.
Qed.

(** C5: with [max_size > 0] and [0 <= overlap < max_size] the chunker
    succeeds; every chunk is the slice of the document between its
    offsets and at most [max_size] long; every character of the document
    is in a chunk, at its place; and of two consecutive chunks the first
    is [max_size] long, the second starts [max_size - overlap] later,
    so that the last [overlap] characters of the first are the first
    [overlap] characters of the second, and ends later. Only the last
    chunk can be shorter than [max_size]. *)
Theorem chunks_cover_and_overlap (document : Document) (max_size overlap : Z) :
  (0 < max_size)%Z -> (0 <= overlap < max_size)%Z ->
  let D := page_content document in
  let m := Z.to_nat max_size in
  let o := Z.to_nat overlap in
  exists chunks : list Chunk,
    chunk document max_size overlap = Ok chunks
    /\ Forall (fun c : Chunk =>
                 start_offset c < end_offset c <= String.length D
                 /\ text c = slice D (start_offset c) (end_offset c)
                 /\ String.length (text c) = end_offset c - start_offset c
                 /\ String.length (text c) <= m) chunks
    /\ (forall (i : nat) (ch : ascii),
          String.get i D = Some ch ->
          exists c : Chunk,
            In c chunks /\ start_offset c <= i < end_offset c
            /\ String.get (i - start_offset c) (text c) = Some ch)
    /\ (forall (n : nat) (c1 c2 : Chunk),
          chunks !! n = Some c1 -> chunks !! S n = Some c2 ->
          String.length (text c1) = m
          /\ start_offset c2 = start_offset c1 + (m - o)
          /\ end_offset c1 = start_offset c2 + o
          /\ end_offset c1 < end_offset c2
          /\ slice (text c1) (m - o) m = slice (text c2) 0 o
          /\ String.length (slice (text c2) 0 o) = o).
Proof.
  intros Hm Ho D m o.
  rewrite chunk_valid by assumption. fold D m o.
  eexists. split; [reflexivity|].
  destruct (String.length D =? 0)%nat eqn:Hlen.
  { apply Nat.eqb_eq in Hlen. split; [constructor|]. split.
    - intros i ch Hget. apply get_lt in Hget. lia.
    - intros n c1 c2 H1. discriminate. }
  apply Nat.eqb_neq in Hlen.
  assert (Hstep : 1 <= m - o <= m) by (subst m o; lia).
  assert (Hom : o <= m) by (subst m o; lia).
  destruct (windows_spec (String.length D) (String.length D) 0 m (m - o))
    as (_ & Hall & Hcover & Hnext); [lia..|].
  set (ws := windows (String.length D) (String.length D) 0 m (m - o)) in *.
  set (mk := fun w : nat * nat =>
               {| source_document_id := (source document, page document);
                  start_offset := fst w; end_offset := snd w;
                  text := slice D (fst w) (snd w) |}).
  assert (Hlenw : forall w : nat * nat,
             fst w < snd w <= String.length D ->
             String.length (slice D (fst w) (snd w)) = snd w - fst w).
  { intros w Hw. unfold slice. apply substring_length. lia. }
  split; [|split].
  - apply Forall_map. eapply Forall_impl; [exact Hall|].
    intros w (_ & Hw & _ & Hsize). cbn [mk start_offset end_offset text].
    rewrite Hlenw by exact Hw. repeat split; lia.
  - intros i ch Hget. pose proof (get_lt _ _ _ Hget) as Hi.
    destruct (proj1 (List.Exists_exists _ _) (Hcover i ltac:(lia))) as (w & Hin & Hw).
    exists (mk w). split; [now apply in_map|].
    cbn [mk start_offset end_offset text]. split; [exact Hw|].
    unfold slice. rewrite substring_correct1 by lia.
    now replace (i - fst w + fst w) with i by lia.
  - intros n c1 c2 H1 H2. rewrite lookup_map in H1, H2.
    destruct (ws !! n) as [w1|] eqn:E1; [|discriminate].
    destruct (ws !! S n) as [w2|] eqn:E2; [|discriminate].
    cbn in H1, H2. injection H1 as <-. injection H2 as <-.
    destruct (Hnext n w1 w2 E1 E2) as (Hfull & Hstart & Hend).
    pose proof (proj1 (List.Forall_forall _ _) Hall w1
                  (proj1 (list_elem_of_In _ _) (list_elem_of_lookup_2 _ _ _ E1))) as (_ & Hw1 & _).
    pose proof (proj1 (List.Forall_forall _ _) Hall w2
                  (proj1 (list_elem_of_In _ _) (list_elem_of_lookup_2 _ _ _ E2))) as (_ & Hw2 & _).
    cbn [mk start_offset end_offset text].
    rewrite (Hlenw w1 Hw1).
    split; [lia|]. split; [lia|]. split; [lia|]. split; [lia|].
    unfold slice.
    rewrite !substring_substring by lia.
    split.
    + f_equal; lia.
    + rewrite substring_length; lia.
Qed.

(** ** Similarity search *)

Lemma insert_by_score_perm (e : Chunk * Q) (l : RetrievalResult) :
  Permutation (insert_by_score e l) (e :: l).
Proof.
  induction l as [|h t IH]; simpl; [reflexivity|].
  destruct (Qle_bool (snd h) (snd e)); [reflexivity|].
  rewrite IH. apply perm_swap.
Qed.

Lemma rank_perm (l : RetrievalResult) : Permutation (rank l) l.
Proof.
  induction l as [|h t IH]; simpl; [reflexivity|].
  rewrite insert_by_score_perm. now apply perm_skip.
Qed.

Lemma insert_by_score_sorted (e : Chunk * Q) (l : RetrievalResult) :
  StronglySorted scores_at_least l -> StronglySorted scores_at_least (insert_by_score e l).
Proof.
  induction l as [|h t IH]; intros Hs; simpl.
  - constructor; constructor.
  - apply StronglySorted_inv in Hs as [Ht Hh].
    destruct (Qle_bool (snd h) (snd e)) eqn:Hle.
    + apply Qle_bool_iff in Hle. constructor.
      * now constructor.
      * constructor; [exact Hle|].
        eapply Forall_impl; [exact Hh|].
        intros x Hx. unfold scores_at_least in *. now apply Qle_trans with (snd h).
    + assert (Hlt : (snd e < snd h)%Q).
      { apply Qnot_le_lt. intros Hc. apply Qle_bool_iff in Hc. congruence. }
      constructor; [now apply IH|].
      rewrite (insert_by_score_perm e t). constructor; [|exact Hh].
      unfold scores_at_least. now apply Qlt_le_weak.
Qed.

Lemma rank_sorted (l : RetrievalResult) : StronglySorted scores_at_least (rank l).
Proof.
  induction l as [|h t IH]; simpl; [constructor|]. now apply insert_by_score_sorted.
Qed.

(** Entries with equal scores keep their order. *)
Lemma rank_ties_keep_order (l : RetrievalResult) (score : Q) :
  Forall (fun x : Chunk * Q => (snd x == score)%Q) l -> rank l = l.
Proof.
  induction l as [|h t IH]; intros Hall; [reflexivity|].
  apply Forall_cons in Hall as [Hh Ht]. cbn [rank fold_right]. fold (rank t).
  rewrite (IH Ht). destruct t as [|h' t']; [reflexivity|].
  apply Forall_cons in Ht as [Hh' _]. cbn [insert_by_score].
  assert (Hle : Qle_bool (snd h') (snd h) = true).
  { apply Qle_bool_iff. rewrite Hh, Hh'. apply Qle_refl. }
  now rewrite Hle.
Qed.

Lemma take_sorted (l : RetrievalResult) (k : nat) :
  StronglySorted scores_at_least l -> StronglySorted scores_at_least (take k l).
Proof.
  revert k. induction l as [|h t IH]; intros [|k] Hs; simpl; try constructor.
  - apply IH. now apply StronglySorted_inv in Hs.
  - apply StronglySorted_inv in Hs as [_ Hh]. now apply Forall_take.
Qed.

Lemma sorted_take_drop (l : RetrievalResult) (k : nat) :
  StronglySorted scores_at_least l ->
  Forall (fun y : Chunk * Q => Forall (fun x : Chunk * Q => scores_at_least x y) (take k l))
    (drop k l).
Proof.
  revert k. induction l as [|h t IH]; intros [|k] Hs; simpl.
  - constructor.
  - constructor.
  - apply List.Forall_forall. intros y _. constructor.
  - apply StronglySorted_inv in Hs as [Ht Hh].
    specialize (IH k Ht).
    apply List.Forall_forall. intros y Hy. constructor.
    + exact (proj1 (List.Forall_forall _ _) (Forall_drop _ k _ Hh) y Hy).
    + exact (proj1 (List.Forall_forall _ _) IH y Hy).
Qed.

(** C6: [search] with [k <= 0] fails with [InvalidArgument]; with
    [k > 0] it returns at most [k] entries, each scoring at least as
    high as the ones after it and as every entry it leaves out, the
    returned and the left-out entries together being the scored entries
    of the index; an index of at most [k] entries is returned whole. *)
Theorem search_returns_ranked_top_k (store : FAISS) (query_vector : Vector) (k : Z) :
  ((k <= 0)%Z -> search store query_vector k = Err InvalidArgument)
  /\ ((0 < k)%Z ->
      exists r rest : RetrievalResult,
        search store query_vector k = Ok r
        /\ (Z.of_nat (List.length r) <= k)%Z
        /\ List.length r = Nat.min (Z.to_nat k) (List.length (entries store))
        /\ StronglySorted scores_at_least r
        /\ Permutation (r ++ rest) (scored store query_vector)
        /\ Forall (fun y : Chunk * Q =>
                     Forall (fun x : Chunk * Q => scores_at_least x y) r) rest
        /\ ((Z.of_nat (List.length (entries store)) <= k)%Z ->
            rest = [] /\ Permutation r (scored store query_vector))).
Proof.
  unfold search. split.
  - intros Hk. apply Z.leb_le in Hk. now rewrite Hk.
  - intros Hk. apply Z.leb_gt in Hk as Hk'. rewrite Hk'.
    exists (take (Z.to_nat k) (rank (scored store query_vector))),
           (drop (Z.to_nat k) (rank (scored store query_vector))).
    assert (Hlen : List.length (take (Z.to_nat k) (rank (scored store query_vector)))
                   = Nat.min (Z.to_nat k) (List.length (entries store))).
    { now rewrite length_take, rank_length, scored_length. }
    split; [reflexivity|]. split; [rewrite Hlen; lia|]. split; [exact Hlen|].
    split; [apply take_sorted, rank_sorted|].
    split; [rewrite take_drop; apply rank_perm|].
    split; [apply sorted_take_drop, rank_sorted|].
    intros Hall.
    assert (Hge : List.length (rank (scored store query_vector)) <= Z.to_nat k).
    { rewrite rank_length, scored_length. lia. }
    split.
    + now apply drop_ge.
    + rewrite take_ge by exact Hge. apply rank_perm.
Qed.

(** * More of the program *)

(** ** [main], block by block *)

Lemma main_run (w : World) :
  main w =
  match (if store_vector_pressed (session w) then store_vector_block else mret tt)
          (shown page_top w) with
  | (Ok _, w1) =>
      (if send_pressed (session w1) then send_block (typed_question (session w)) else mret tt)
        (show (Button "Send") w1)
  | (Err e, w1) => (Err e, w1)
  end.
Proof.
  unfold main, store_vector_block, send_block.
  unfold st_set_page_config, st_header, st_title.
  do 2 (rewrite bind_run, st_emit_run; cbv beta iota).
  rewrite bind_run, st_text_input_run; cbv beta iota.
  rewrite bind_run, st_emit_run; cbv beta iota.
  rewrite bind_run, st_button_run; cbv beta iota.
  rewrite String.eqb_refl. cbn [session show].
  rewrite bind_run.
  change (show (Button "Store Vector") _) with (shown page_top w).
  assert (Hsend : forall w1 : World,
             (st_button "Send" ≫= fun send : bool =>
                if send
                then
                  st_spinner "Processing...";;
                  faiss_index ← FAISS_load_local "faiss_index" bedrock_embeddings true;
                  let llm := get_llm in
                  response_text ← get_response_llm llm faiss_index (typed_question (session w));
                  st_write response_text
                else mret tt) w1
             = (if send_pressed (session w1)
                then
                  st_spinner "Processing...";;
                  faiss_index ← FAISS_load_local "faiss_index" bedrock_embeddings true;
                  let llm := get_llm in
                  response_text ← get_response_llm llm faiss_index (typed_question (session w));
                  st_write response_text
                else mret tt) (show (Button "Send") w1)).
  { intros w1. rewrite bind_run, st_button_run; cbv beta iota.
    change ("Send" =? "Store Vector")%string with false.
    now rewrite String.eqb_refl. }
  destruct (store_vector_pressed (session w)).
  - match goal with
    | |- (let (r, w') := ?c in _) = _ => destruct c as [[u|e] w1]
    end; [apply Hsend | reflexivity].
  - rewrite mret_run. apply Hsend.
Qed.

Lemma split_documents_ok (documents : list Document) :
  exists chunks : list Chunk,
    split_documents {| chunk_size := 1000; chunk_overlap := 500 |} documents = Ok chunks.
Proof.
  induction documents as [|d ds [rest IH]]; [now exists []|].
  cbn [split_documents chunk_size chunk_overlap].
  rewrite chunk_valid by lia. rewrite IH. eexists. reflexivity.
Qed.

Lemma get_documents_run (w : World) : get_documents w = (Ok (data_chunks w), w).
Proof.
  unfold get_documents, PyPDFDirectoryLoader_load, data_chunks.
  rewrite !bind_run. unfold get_world. rewrite mret_run, bind_run. unfold lift.
  destruct (split_documents_ok (default [] (directories w !! "data"))) as [chunks Hc].
  now rewrite Hc.
Qed.

Lemma shown_app (xs ys : list Widget) (w : World) :
  shown (xs ++ ys) w = shown ys (shown xs w).
Proof. unfold shown. apply fold_left_app. Qed.

Lemma store_vector_block_run (w : World) :
  store_vector_block w =
  match get_vector_store (data_chunks w) (show (Spinner "Processing...") w) with
  | (Ok _, w2) => (Ok tt, show (Success "Vector store created successfully!") w2)
  | (Err e, w2) => (Err e, w2)
  end.
Proof.
  unfold store_vector_block, st_spinner, st_success.
  rewrite bind_run, st_emit_run; cbv beta iota.
  rewrite bind_run, get_documents_run; cbv beta iota.
  rewrite bind_run.
  change (data_chunks (show (Spinner "Processing...") w)) with (data_chunks w).
  now destruct (get_vector_store _ _) as [[u|e] w2].
Qed.

Lemma send_block_run (user_question : string) (w : World) :
  send_block user_question w =
  match disk w !! "faiss_index" with
  | None => (Err (IndexLoadError "no index at this path"), show (Spinner "Processing...") w)
  | Some blob =>
      match get_response_llm get_llm (restored bedrock_embeddings blob) user_question
              (show (Spinner "Processing...") w) with
      | (Ok t, w2) => (Ok tt, show (Written t) w2)
      | (Err e, w2) => (Err e, w2)
      end
  end.
Proof.
  unfold send_block, st_spinner, st_write.
  rewrite bind_run, st_emit_run; cbv beta iota.
  rewrite bind_run, FAISS_load_local_cases. cbn [disk show].
  destruct (disk w !! "faiss_index") as [blob|]; [|reflexivity].
  cbv beta iota zeta. rewrite bind_run.
  now destruct (get_response_llm _ _ _ _) as [[t|e] w2].
Qed.

(** X1: a run of [main] in which no button was pressed shows the page
    and nothing else: it succeeds, sends no request to Bedrock, and leaves
    the disk, the documents and the session as they were. *)
Theorem main_without_a_click (w : World) :
  store_vector_pressed (session w) = false ->
  send_pressed (session w) = false ->
  main w = (Ok tt, shown page_frame w)
  /\ requests (snd (main w)) = requests w
  /\ disk (snd (main w)) = disk w
  /\ directories (snd (main w)) = directories w
  /\ session (snd (main w)) = session w
  /\ screen (snd (main w)) = screen w ++ page_frame.
Proof.
  intros Hstore Hsend.
  assert (Hrun : main w = (Ok tt, shown page_frame w)).
  { rewrite main_run, Hstore, mret_run.
    change (session (shown page_top w)) with (session w). now rewrite Hsend. }
  rewrite Hrun. cbn [snd]. repeat split. apply shown_screen.
Qed.

(** X2: a run of [main] in which "Send" was pressed while no index is
    stored at "faiss_index" fails with [IndexLoadError] after the spinner
    is shown: no request is sent to Bedrock (the index is loaded before
    the model is built and the chain is run), nothing is written to the
    page, and the disk is as before. *)
Theorem main_send_without_index (w : World) :
  store_vector_pressed (session w) = false ->
  send_pressed (session w) = true ->
  disk w !! "faiss_index" = None ->
  fst (main w) = Err (IndexLoadError "no index at this path")
  /\ requests (snd (main w)) = requests w
  /\ disk (snd (main w)) = disk w
  /\ screen (snd (main w)) = screen w ++ page_frame ++ [Spinner "Processing..."].
Proof.
  intros Hstore Hsend Hnone.
  rewrite main_run, Hstore, mret_run.
  change (session (shown page_top w)) with (session w). rewrite Hsend.
  rewrite send_block_run.
  change (disk (show (Button "Send") (shown page_top w))) with (disk w).
  rewrite Hnone. cbn [fst snd]. repeat split.
  change (show (Spinner "Processing...") (show (Button "Send") (shown page_top w)))
    with (shown (page_frame ++ [Spinner "Processing..."]) w).
  apply shown_screen.
Qed.

(** ** Building the index *)

(** The build sends one embedding request per chunk, in order, and stops
    at the first chunk whose embedding fails or has another dimension. *)
Lemma embed_chunks_trace (e : BedrockEmbeddings) (chunks : list Chunk) (w : World) :
  match embed_chunks e chunks w with
  | (Ok es, w') =>
      requests w' = requests w ++ map (chunk_request e) chunks
      /\ map fst es = chunks
      /\ Forall (fun cv : Chunk * Vector =>
                   provider_embed (embeddings_model_id e) (text (fst cv)) = Reply (snd cv)
                   /\ List.length (snd cv) = provider_dimension (embeddings_model_id e)) es
  | (Err err, w') =>
      exists (n : nat) (c : Chunk),
        chunks !! n = Some c
        /\ requests w' = requests w ++ map (chunk_request e) (take (S n) chunks)
        /\ ((exists msg : string,
               provider_embed (embeddings_model_id e) (text c) = Refusal msg
               /\ err = EmbeddingError msg)
            \/ (exists v : Vector,
                  provider_embed (embeddings_model_id e) (text c) = Reply v
                  /\ List.length v <> provider_dimension (embeddings_model_id e)
                  /\ err = DimensionMismatch))
  end.
Proof.
  revert w. induction chunks as [|c cs IH]; intros w.
  { cbn. repeat split; [now rewrite app_nil_r | constructor]. }
  cbn [embed_chunks]. rewrite bind_run, embed_query_run.
  set (w1 := record_request (EmbedRequest (embeddings_model_id e) (text c)) w).
  assert (Hw1 : requests w1 = requests w ++ [chunk_request e c]) by reflexivity.
  destruct (provider_embed _ _) as [v|msg] eqn:Hv.
  2:{ exists 0, c. split; [reflexivity|]. split; [exact Hw1|]. left. now exists msg. }
  rewrite bind_run.
  destruct (List.length v =? _)%nat eqn:Hdim.
  2:{ unfold raise. exists 0, c. split; [reflexivity|]. split; [exact Hw1|]. right.
      exists v. apply Nat.eqb_neq in Hdim. now repeat split. }
  apply Nat.eqb_eq in Hdim. rewrite mret_run, bind_run.
  specialize (IH w1). destruct (embed_chunks e cs w1) as [[es|err] w2].
  - rewrite mret_run. destruct IH as (Hr & Hfst & Hall). split; [|split].
    + rewrite Hr, Hw1. cbn [map]. now rewrite <- app_assoc.
    + cbn [map fst]. now rewrite Hfst.
    + constructor; [now split | exact Hall].
  - destruct IH as (n & c' & Hn & Hr & Hcause). exists (S n), c'.
    split; [exact Hn|]. split; [|exact Hcause].
    rewrite Hr, Hw1. cbn [take map]. now rewrite <- app_assoc.
Qed.

(** X4: a run of [main] in which "Store Vector" was pressed chunks the
    pages under "data", builds the store and saves it at "faiss_index".
    When the build succeeds the run succeeds, the file holds the chunks of
    the pages, and the page shows the success message; when an embedding
    fails the run fails with that exception, the disk is as before and no
    success message is shown. Either way every request the run sends is
    an embedding request: the language model is not called. *)
Theorem main_store_vector_run (w : World) :
  store_vector_pressed (session w) = true ->
  send_pressed (session w) = false ->
  match FAISS_from_documents (data_chunks w) bedrock_embeddings
          (shown (page_top ++ [Spinner "Processing..."]) w) with
  | (Ok store, _) =>
      fst (main w) = Ok tt
      /\ disk (snd (main w)) = <["faiss_index" := persisted store]> (disk w)
      /\ map fst (entries store) = data_chunks w
      /\ screen (snd (main w)) =
         screen w ++ page_top ++
           [ Spinner "Processing..."; Success "Vector store created successfully!";
             Button "Send" ]
  | (Err e, _) =>
      fst (main w) = Err e
      /\ disk (snd (main w)) = disk w
      /\ screen (snd (main w)) = screen w ++ page_top ++ [Spinner "Processing..."]
  end
  /\ exists sent : list Request,
       requests (snd (main w)) = requests w ++ sent /\ Forall is_embed_request sent.
Proof.
  intros Hstore Hsend.
  rewrite main_run, Hstore, store_vector_block_run, get_vector_store_run.
  change (data_chunks (shown page_top w)) with (data_chunks w).
  change (show (Spinner "Processing...") (shown page_top w))
    with (shown (page_top ++ [Spinner "Processing..."]) w).
  rewrite FAISS_from_documents_run.
  pose proof (embed_chunks_trace bedrock_embeddings (data_chunks w)
                (shown (page_top ++ [Spinner "Processing..."]) w)) as Htrace.
  pose proof (embed_chunks_frame bedrock_embeddings (data_chunks w)
                (shown (page_top ++ [Spinner "Processing..."]) w)) as Hframe.
  destruct (embed_chunks _ _ _) as [[es|err] w']; cbn [snd] in Hframe;
    destruct Hframe as (_ & Hdisk & Hsession & Hscreen & sent & Hsent & Hall).
  - destruct Htrace as (_ & Hfst & _).
    cbn [session show store_file]. rewrite Hsession.
    change (session (shown (page_top ++ [Spinner "Processing..."]) w)) with (session w).
    rewrite Hsend, mret_run. cbn [fst snd disk screen requests show store_file entries].
    split.
    + split; [reflexivity|]. split; [now rewrite Hdisk|]. split; [exact Hfst|].
      rewrite Hscreen, shown_screen. now rewrite <- !app_assoc.
    + exists sent. split; [exact Hsent | exact Hall].
  - cbn [fst snd]. split.
    + split; [reflexivity|]. split; [exact Hdisk|]. now rewrite Hscreen, shown_screen.
    + exists sent. split; [exact Hsent | exact Hall].
Qed.

(** ** Storing, then asking *)

Lemma main_store_only (w : World) :
  store_vector_pressed (session w) = true ->
  send_pressed (session w) = false ->
  main w =
  match FAISS_from_documents (data_chunks w) bedrock_embeddings
          (shown (page_top ++ [Spinner "Processing..."]) w) with
  | (Ok store, w2) =>
      (Ok tt,
       show (Button "Send")
         (show (Success "Vector store created successfully!")
            (store_file "faiss_index" (persisted store) w2)))
  | (Err e, w2) => (Err e, w2)
  end.
Proof.
  intros Hstore Hsend.
  rewrite main_run, Hstore, store_vector_block_run, get_vector_store_run.
  change (data_chunks (shown page_top w)) with (data_chunks w).
  change (show (Spinner "Processing...") (shown page_top w))
    with (shown (page_top ++ [Spinner "Processing..."]) w).
  rewrite FAISS_from_documents_run.
  pose proof (embed_chunks_frame bedrock_embeddings (data_chunks w)
                (shown (page_top ++ [Spinner "Processing..."]) w)) as Hframe.
  destruct (embed_chunks _ _ _) as [[es|err] w']; cbn [snd] in Hframe; [|reflexivity].
  destruct Hframe as (_ & _ & Hsession & _).
  cbn [session show store_file]. rewrite Hsession.
  change (session (shown (page_top ++ [Spinner "Processing..."]) w)) with (session w).
  now rewrite Hsend, mret_run.
Qed.

(** X5: storing, then asking. After a run of [main] in which "Store
    Vector" succeeded, a next run in which "Send" is pressed finds the
    index: it does not fail with [IndexLoadError], and it answers the
    typed question from the store that was built from the chunks of the
    pages under "data", its outcome being that of [get_response_llm] on
    that store. *)
Theorem store_then_ask (w : World) (s : Session) :
  store_vector_pressed (session w) = true ->
  send_pressed (session w) = false ->
  store_vector_pressed s = false ->
  send_pressed s = true ->
  fst (main w) = Ok tt ->
  exists store : FAISS,
    fst (FAISS_from_documents (data_chunks w) bedrock_embeddings
           (shown (page_top ++ [Spinner "Processing..."]) w)) = Ok store
    /\ disk (snd (main w)) !! "faiss_index" = Some (persisted store)
    /\ main (with_session s (snd (main w))) =
       match get_response_llm get_llm store (typed_question s)
               (shown (page_frame ++ [Spinner "Processing..."])
                  (with_session s (snd (main w)))) with
       | (Ok t, w2) => (Ok tt, show (Written t) w2)
       | (Err e, w2) => (Err e, w2)
       end.
Proof.
  intros Hstore Hsend Hstore' Hsend' Hok.
  rewrite (main_store_only w Hstore Hsend) in Hok |- *.
  rewrite FAISS_from_documents_run in Hok |- *.
  destruct (embed_chunks _ _ _) as [[es|err] w2]; [|discriminate].
  cbn [fst snd]. eexists. split; [reflexivity|].
  split; [cbn [disk show store_file]; apply lookup_insert_eq|].
  rewrite main_send_run by assumption. cbv zeta.
  cbn [disk show store_file with_session session typed_question].
  rewrite lookup_insert_eq. reflexivity.
Qed.

(** ** What [get_response_llm] does to the world *)

(** X6: [get_response_llm] touches nothing but the Bedrock service: the
    disk, the documents, the session and the page are as before; it sends
    exactly one request to the embedding model of the store and, unless
    that call failed, exactly one prompt to the language model it was
    given, with that model's keyword arguments. *)
Theorem response_only_talks_to_bedrock
    (l : Bedrock) (store : FAISS) (question : string) (w : World) :
  let w' := snd (get_response_llm l store question w) in
  directories w' = directories w
  /\ disk w' = disk w
  /\ session w' = session w
  /\ screen w' = screen w
  /\ exists (input : string) (rest : list Request),
       requests w' =
       requests w ++ EmbedRequest (embeddings_model_id (embedding_function store)) input :: rest
       /\ match fst (get_response_llm l store question w) with
          | Err (EmbeddingError _) => rest = []
          | _ => exists prompt : string,
                   rest = [ GenerateRequest (model_id l) prompt (model_kwargs l) ]
          end.
Proof.
  cbv zeta. rewrite get_response_llm_run. cbv zeta.
  destruct (provider_embed _ _) as [v|msg].
  - destruct (provider_generate _ _ _); cbn [fst snd]; repeat split;
      eexists _, _; (split; [cbn; rewrite <- app_assoc; reflexivity | eexists; reflexivity]).
  - cbn [fst snd]. repeat split. eexists _, []. now split.
Qed.

(** X7: an empty index does not stop a question: when the store has no
    entry the query is still embedded and the language model is still
    asked, with the template's context left empty, and its text (or its
    failure) is the outcome. *)
Theorem empty_store_still_asks
    (l : Bedrock) (store : FAISS) (question : string) (w : World) :
  entries store = [] ->
  let model := embeddings_model_id (embedding_function store) in
  match provider_embed model question with
  | Refusal msg => fst (get_response_llm l store question w) = Err (EmbeddingError msg)
  | Reply _ =>
      requests (snd (get_response_llm l store question w)) =
      requests w ++
        [ EmbedRequest model question;
          GenerateRequest (model_id l) (rendered "" question) (model_kwargs l) ]
      /\ fst (get_response_llm l store question w) =
         match provider_generate (model_id l) (rendered "" question) (model_kwargs l) with
         | Reply t => Ok t
         | Refusal msg => Err (GenerationError msg)
         end
  end.
Proof.
  intros Hempty. cbv zeta. rewrite get_response_llm_run. cbv zeta.
  destruct (provider_embed _ _) as [v|msg]; [|reflexivity].
  assert (Hdocs : take 3 (rank (scored store v)) = []).
  { unfold scored. now rewrite Hempty. }
  rewrite Hdocs. change (context_block []) with "".
  destruct (provider_generate _ _ _); cbn; split; try reflexivity; now rewrite <- app_assoc.
Qed.

(** ** What a run of [main] does to the world *)

Lemma run_effect_refl (w : World) : run_effect w w.
Proof.
  repeat split.
  - exists []. now rewrite app_nil_r.
  - exists []. split; [now rewrite app_nil_r | constructor].
Qed.

Lemma run_effect_trans (w1 w2 w3 : World) :
  run_effect w1 w2 -> run_effect w2 w3 -> run_effect w1 w3.
Proof.
  intros (Hd1 & Hs1 & Hk1 & (o1 & Ho1) & (r1 & Hr1 & Ha1))
         (Hd2 & Hs2 & Hk2 & (o2 & Ho2) & (r2 & Hr2 & Ha2)).
  repeat split.
  - congruence.
  - congruence.
  - intros path Hpath. rewrite Hk2 by exact Hpath. now apply Hk1.
  - exists (o1 ++ o2). now rewrite Ho2, Ho1, <- app_assoc.
  - exists (r1 ++ r2). split; [now rewrite Hr2, Hr1, <- app_assoc | now apply Forall_app].
Qed.

Lemma run_effect_show (x : Widget) (w : World) : run_effect w (show x w).
Proof.
  repeat split.
  - now exists [x].
  - exists []. split; [cbn; now rewrite app_nil_r | constructor].
Qed.

Lemma run_effect_shown (xs : list Widget) (w : World) : run_effect w (shown xs w).
Proof.
  revert w. induction xs as [|x xs IH]; intros w; [apply run_effect_refl|].
  cbn. eapply run_effect_trans; [apply run_effect_show | apply IH].
Qed.

Lemma chunk_requests_program (chunks : list Chunk) :
  Forall program_request (map (chunk_request bedrock_embeddings) chunks).
Proof. induction chunks; constructor; [reflexivity | assumption]. Qed.

Lemma get_vector_store_effect (docs : list Chunk) (w : World) :
  run_effect w (snd (get_vector_store docs w)).
Proof.
  rewrite get_vector_store_run, FAISS_from_documents_run.
  pose proof (embed_chunks_trace bedrock_embeddings docs w) as Htrace.
  pose proof (embed_chunks_frame bedrock_embeddings docs w) as Hframe.
  destruct (embed_chunks _ _ _) as [[es|err] w']; cbn [snd] in Hframe |- *;
    destruct Hframe as (Hd & Hk & Hs & Hp & _).
  - destruct Htrace as (Hr & _). repeat split; cbn; try assumption.
    + intros path Hpath. rewrite lookup_insert_ne by congruence. now rewrite Hk.
    + exists []. now rewrite Hp, app_nil_r.
    + eexists. split; [exact Hr | apply chunk_requests_program].
  - destruct Htrace as (n & c & _ & Hr & _). repeat split; try assumption.
    + intros path _. now rewrite Hk.
    + exists []. now rewrite Hp, app_nil_r.
    + eexists. split; [exact Hr | apply chunk_requests_program].
Qed.

Lemma get_response_llm_effect (blob : Blob) (question : string) (w : World) :
  run_effect w (snd (get_response_llm get_llm (restored bedrock_embeddings blob) question w))
  /\ disk (snd (get_response_llm get_llm (restored bedrock_embeddings blob) question w)) = disk w.
Proof.
  rewrite get_response_llm_run. cbv zeta.
  cbn [embedding_function restored].
  destruct (provider_embed _ _) as [v|msg].
  - assert (Hgen : run_effect w
                     (record_request
                        (GenerateRequest (model_id get_llm)
                           (rendered (context_block
                                        (take 3 (rank (scored (restored bedrock_embeddings blob) v))))
                              question)
                           (model_kwargs get_llm))
                        (record_request
                           (EmbedRequest (embeddings_model_id bedrock_embeddings) question) w))).
    { repeat split.
      - exists []. cbn. now rewrite app_nil_r.
      - eexists. split; [cbn; now rewrite <- app_assoc|].
        constructor; [reflexivity|]. constructor; [now split | constructor]. }
    destruct (provider_generate _ _ _); cbn [snd]; split; (exact Hgen || reflexivity).
  - cbn [snd]. split; [|reflexivity]. repeat split.
    + exists []. cbn. now rewrite app_nil_r.
    + eexists. split; [reflexivity|]. constructor; [reflexivity | constructor].
Qed.

Lemma store_vector_block_effect (w : World) : run_effect w (snd (store_vector_block w)).
Proof.
  rewrite store_vector_block_run.
  pose proof (get_vector_store_effect (data_chunks w) (show (Spinner "Processing...") w)) as H.
  assert (H' : run_effect w (snd (get_vector_store (data_chunks w)
                                    (show (Spinner "Processing...") w)))).
  { eapply run_effect_trans; [apply run_effect_show | exact H]. }
  destruct (get_vector_store _ _) as [[u|e] w2]; cbn [snd] in H' |- *; [|exact H'].
  eapply run_effect_trans; [exact H' | apply run_effect_show].
Qed.

Lemma send_block_effect (user_question : string) (w : World) :
  run_effect w (snd (send_block user_question w))
  /\ disk (snd (send_block user_question w)) = disk w.
Proof.
  rewrite send_block_run.
  destruct (disk w !! "faiss_index") as [blob|]; [|split; [apply run_effect_show | reflexivity]].
  destruct (get_response_llm_effect blob user_question (show (Spinner "Processing...") w))
    as [H Hdisk].
  assert (H' : run_effect w (snd (get_response_llm get_llm (restored bedrock_embeddings blob)
                                    user_question (show (Spinner "Processing...") w)))).
  { eapply run_effect_trans; [apply run_effect_show | exact H]. }
  destruct (get_response_llm _ _ _ _) as [[t|e] w2]; cbn [snd] in H', Hdisk |- *.
  - split; [|exact Hdisk]. eapply run_effect_trans; [exact H' | apply run_effect_show].
  - split; [exact H' | exact Hdisk].
Qed.

Lemma main_effect (w : World) :
  run_effect w (snd (main w))
  /\ (store_vector_pressed (session w) = false -> disk (snd (main w)) = disk w).
Proof.
  rewrite main_run.
  assert (Hsend : forall w1 : World,
             run_effect w1
               (snd ((if send_pressed (session w1)
                      then send_block (typed_question (session w))
                      else mret tt) (show (Button "Send") w1)))
             /\ disk (snd ((if send_pressed (session w1)
                            then send_block (typed_question (session w))
                            else mret tt) (show (Button "Send") w1))) = disk w1).
  { intros w1. destruct (send_pressed (session w1)).
    - destruct (send_block_effect (typed_question (session w)) (show (Button "Send") w1))
        as [H Hdisk].
      split; [|exact Hdisk]. eapply run_effect_trans; [apply run_effect_show | exact H].
    - rewrite mret_run. split; [apply run_effect_show | reflexivity]. }
  destruct (store_vector_pressed (session w)).
  - split; [|discriminate].
    pose proof (store_vector_block_effect (shown page_top w)) as H.
    assert (H' : run_effect w (snd (store_vector_block (shown page_top w)))).
    { eapply run_effect_trans; [apply run_effect_shown | exact H]. }
    destruct (store_vector_block _) as [[u|e] w1]; cbn [snd] in H' |- *; [|exact H'].
    eapply run_effect_trans; [exact H' | apply Hsend].
  - rewrite mret_run. destruct (Hsend (shown page_top w)) as [H Hdisk]. split.
    + eapply run_effect_trans; [apply run_effect_shown | exact H].
    + intros _. exact Hdisk.
Qed.

(** X8: whatever the session and the world, every request a run of
    [main] sends to Bedrock is either an embedding request to the model of
    [bedrock_embeddings] ("amazon.titan-embed-text-v2:0") or a generation
    request to the model of [get_llm] ("meta.llama3-70b-instruct-v1:0")
    with its keyword arguments ([max_gen_len] 512); the requests sent
    before the run stay in the log. *)
Theorem main_calls_its_two_models (w : World) :
  exists sent : list Request,
    requests (snd (main w)) = requests w ++ sent
    /\ Forall (fun r : Request =>
                 match r with
                 | EmbedRequest model _ => model = "amazon.titan-embed-text-v2:0"
                 | GenerateRequest model _ kwargs =>
                     model = "meta.llama3-70b-instruct-v1:0"
                     /\ kwargs !! "max_gen_len" = Some 512%Z
                     /\ forall key : string, key <> "max_gen_len" -> kwargs !! key = None
                 end) sent.
Proof.
  destruct (main_effect w) as [(_ & _ & _ & _ & sent & Hsent & Hall) _].
  exists sent. split; [exact Hsent|].
  eapply Forall_impl; [exact Hall|].
  intros [model input | model prompt kwargs]; cbn.
  - now intros ->.
  - intros [-> ->]. split; [reflexivity|]. split; [apply lookup_singleton_eq|].
    intros key Hkey. now apply lookup_singleton_ne.
Qed.

(** X9: whatever the session and the world, a run of [main] leaves the
    documents and the session as they are, changes the disk at no other
    path than "faiss_index", and not at all unless "Store Vector" was
    pressed, and only adds to the page. *)
Theorem main_changes_only_the_index_file (w : World) :
  directories (snd (main w)) = directories w
  /\ session (snd (main w)) = session w
  /\ (forall path : string,
        path <> "faiss_index" -> disk (snd (main w)) !! path = disk w !! path)
  /\ (store_vector_pressed (session w) = false -> disk (snd (main w)) = disk w)
  /\ exists out : list Widget, screen (snd (main w)) = screen w ++ out.
Proof.
  destruct (main_effect w) as [(Hd & Hs & Hk & Hout & _) Hdisk].
  repeat split; assumption.
Qed.

(** ** The prompt *)

(** X10: formatting [PROMPT]: the keyword arguments must hold "context"
    and "question"; a missing one raises [KeyError] with its name
    ("context" first), any other key is ignored, and the result is the
    template with the two values put in as they are, braces included. *)
Theorem prompt_format_needs_both_keys (kwargs : gmap string string) :
  PromptTemplate_format PROMPT kwargs =
  match kwargs !! "context", kwargs !! "question" with
  | None, _ => Err (KeyError "context")
  | Some _, None => Err (KeyError "question")
  | Some context, Some question => Ok (rendered context question)
  end.
Proof.
  unfold PromptTemplate_format, PyFormat.format. cbn [template PROMPT].
  rewrite parse_prompt_template.
  change (mbind ?f (Ok ?x)) with (f x). cbn [PyFormat.render].
  destruct (kwargs !! "context") as [context|]; [|reflexivity].
  destruct (kwargs !! "question") as [question|]; [|reflexivity].
  cbn. unfold rendered. now rewrite append_nil_r.
Qed.

Lemma length_append (a b : string) :
  String.length (a +:+ b) = String.length a + String.length b.
Proof.
  induction a as [|c a IH]; [reflexivity|].
  rewrite append_cons. cbn [String.length]. now rewrite IH.
Qed.

Lemma rendered_length (context question : string) :
  String.length (rendered context question)
  = 306 + String.length context + String.length question.
Proof.
  unfold rendered. rewrite !length_append.
  change (String.length prompt_head) with 270.
  change (String.length prompt_middle) with 23.
  change (String.length prompt_tail) with 13.
  lia.
Qed.

Lemma join_length_bound (sep : string) (parts : list string) (n : nat) :
  Forall (fun part : string => String.length part <= n) parts ->
  String.length (join sep parts)
  <= List.length parts * n + (List.length parts - 1) * String.length sep.
Proof.
  induction parts as [|part parts IH]; intros Hall; [cbn; lia|].
  apply Forall_cons in Hall as [Hpart Hparts]. specialize (IH Hparts).
  destruct parts as [|part' parts'].
  - cbn. lia.
  - rewrite join_cons by discriminate. rewrite !length_append.
    cbn [List.length] in IH |- *. nia.
Qed.

(** X11: the size of the prompt. The prompt [get_response_llm] sends
    is 306 characters of template plus the context block plus the query;
    as at most three chunks are stuffed into it, over a store whose chunk
    texts are at most [n] characters long it is at most
    [306 + 3 * n + 2 * length separator + length query] characters long. *)
Theorem prompt_length_is_bounded
    (l : Bedrock) (store : FAISS) (question : string) (w : World) (n : nat) :
  Forall (fun e : Chunk * Vector => String.length (text (fst e)) <= n) (entries store) ->
  forall (model prompt : string) (kwargs : gmap string Z),
    In (GenerateRequest model prompt kwargs)
       (requests (snd (get_response_llm l store question w))) ->
    In (GenerateRequest model prompt kwargs) (requests w)
    \/ (exists docs : RetrievalResult,
          prompt = rendered (context_block docs) question
          /\ String.length prompt
             = 306 + String.length (context_block docs) + String.length question
          /\ String.length prompt
             <= 306 + 3 * n + 2 * String.length document_separator + String.length question).
Proof.
  intros Hall model prompt kwargs. rewrite get_response_llm_run. cbv zeta.
  destruct (provider_embed _ _) as [v|msg].
  2:{ cbn. rewrite in_app_iff. intros [Hin | [Hin | []]]; [now left | discriminate]. }
  set (docs := take 3 (rank (scored store v))).
  assert (Hdocs : Forall (fun part : string => String.length part <= n)
                    (map (fun d : Chunk * Q => text (fst d)) docs)).
  { apply Forall_map. subst docs. apply Forall_take.
    rewrite (rank_perm (scored store v)). unfold scored. apply Forall_map.
    eapply Forall_impl; [exact Hall|]. now intros e He. }
  assert (Hlen : List.length (map (fun d : Chunk * Q => text (fst d)) docs) <= 3).
  { rewrite length_map. subst docs. rewrite length_take. lia. }
  pose proof (join_length_bound document_separator _ n Hdocs) as Hjoin.
  fold (context_block docs) in Hjoin.
  assert (Hin : In (GenerateRequest model prompt kwargs)
                  (requests w ++
                     [ EmbedRequest (embeddings_model_id (embedding_function store)) question;
                       GenerateRequest (model_id l) (rendered (context_block docs) question)
                         (model_kwargs l) ]) ->
                In (GenerateRequest model prompt kwargs) (requests w)
                \/ prompt = rendered (context_block docs) question).
  { rewrite in_app_iff. intros [Hin | [Hin | [Hin | []]]];
      [now left | discriminate | right; congruence]. }
  intros Hreq.
  destruct Hin as [Hold | ->].
  { destruct (provider_generate _ _ _); cbn in Hreq; now rewrite <- app_assoc in Hreq. }
  { now left. }
  right. exists docs. split; [reflexivity|]. split; [apply rendered_length|].
  rewrite rendered_length. nia.
Qed.

(** ** The chunks of the documents *)

Lemma substring_split (s : string) (n m k : nat) :
  String.substring n (m + k) s = String.substring n m s +:+ String.substring (n + m) k s.
Proof.
  revert n m. induction s as [|c s IH]; intros n m.
  - destruct n, m, k; reflexivity.
  - destruct n as [|n]; [|exact (IH n m)].
    destruct m as [|m]; [reflexivity|].
    cbn [String.substring Nat.add]. rewrite append_cons. f_equal. exact (IH 0 m).
Qed.

Lemma slice_substring_of (s : string) (i j : nat) :
  i <= j <= String.length s -> substring_of (slice s i j) s.
Proof.
  intros Hij. unfold slice.
  exists (String.substring 0 i s), (String.substring j (String.length s - j) s).
  rewrite <- (substring_all s) at 1.
  replace (String.length s) with (i + ((j - i) + (String.length s - j))) at 1 by lia.
  rewrite substring_split, substring_split. cbn [Nat.add].
  now replace (i + (j - i)) with j by lia.
Qed.

(** With valid parameters every chunk of a document is a non-empty piece
    of its text, at most [max_size] long, and carries its metadata. *)
Lemma chunk_pieces (document : Document) (max_size overlap : Z) (chunks : list Chunk) :
  (0 < max_size)%Z -> (0 <= overlap < max_size)%Z ->
  chunk document max_size overlap = Ok chunks ->
  Forall (fun c : Chunk =>
            source_document_id c = (source document, page document)
            /\ 0 < String.length (text c) <= Z.to_nat max_size
            /\ substring_of (text c) (page_content document)) chunks.
Proof.
  intros Hm Ho. rewrite chunk_valid by assumption.
  destruct (String.length (page_content document) =? 0)%nat eqn:Hlen;
    intros [= <-]; [constructor|].
  apply Nat.eqb_neq in Hlen.
  destruct (windows_spec (String.length (page_content document))
              (String.length (page_content document)) 0
              (Z.to_nat max_size) (Z.to_nat max_size - Z.to_nat overlap))
    as (_ & Hall & _); [lia..|].
  apply Forall_map. eapply Forall_impl; [exact Hall|].
  intros win (_ & Hwin & _ & Hsize). cbn [source_document_id text].
  split; [reflexivity|]. split.
  - unfold slice. rewrite substring_length by lia. lia.
  - apply slice_substring_of. lia.
Qed.

Lemma split_documents_pieces (documents : list Document) (chunks : list Chunk) :
  split_documents {| chunk_size := 1000; chunk_overlap := 500 |} documents = Ok chunks ->
  Forall (fun c : Chunk =>
            0 < String.length (text c) <= 1000
            /\ exists d : Document,
                 In d documents
                 /\ source_document_id c = (source d, page d)
                 /\ substring_of (text c) (page_content d)) chunks.
Proof.
  revert chunks. induction documents as [|d ds IH]; intros chunks.
  - cbn. intros [= <-]. constructor.
  - cbn [split_documents chunk_size chunk_overlap].
    destruct (chunk d 1000 500) as [cs|e] eqn:Hcs; [|discriminate].
    destruct (split_documents _ ds) as [rest|e] eqn:Hrest; [|discriminate].
    intros [= <-]. apply Forall_app. split.
    + eapply Forall_impl; [exact (chunk_pieces d 1000 500 cs ltac:(lia) ltac:(lia) Hcs)|].
      intros c (Hid & Hlen & Hsub). split; [exact Hlen|]. exists d. now repeat split; [left|..].
    + eapply Forall_impl; [exact (IH rest eq_refl)|].
      intros c (Hlen & d' & Hin & Hid & Hsub). split; [exact Hlen|].
      exists d'. now repeat split; [right|..].
Qed.

(** X12: [get_documents] only reads: it leaves the world as it is and
    its result depends on nothing but the pages under "data". It succeeds
    for every set of pages; every chunk it returns is a non-empty piece,
    at most 1000 characters long, of the text of one of these pages and
    carries that page's source and number, so that a page without text
    gives no chunk and no pages give no chunks. *)
Theorem get_documents_reads_the_data_directory (w : World) :
  exists chunks : list Chunk,
    get_documents w = (Ok chunks, w)
    /\ Forall (fun c : Chunk =>
                 0 < String.length (text c) <= 1000
                 /\ exists d : Document,
                      In d (default [] (directories w !! "data"))
                      /\ source_document_id c = (source d, page d)
                      /\ substring_of (text c) (page_content d)) chunks
    /\ (forall w2 : World,
          directories w2 !! "data" = directories w !! "data" ->
          fst (get_documents w2) = Ok chunks)
    /\ (directories w !! "data" = None -> chunks = []).
Proof.
  exists (data_chunks w). split; [apply get_documents_run|]. split; [|split].
  - unfold data_chunks.
    destruct (split_documents _ _) as [chunks|e] eqn:Hsplit; [|constructor].
    now apply split_documents_pieces.
  - intros w2 Hsame. rewrite get_documents_run. cbn [fst].
    unfold data_chunks. now rewrite Hsame.
  - intros Hnone. unfold data_chunks. now rewrite Hnone.
Qed.

(** ** Building twice *)

Lemma embed_chunks_fst (e : BedrockEmbeddings) (chunks : list Chunk) (w w' : World) :
  fst (embed_chunks e chunks w) = fst (embed_chunks e chunks w').
Proof.
  revert w w'. induction chunks as [|c cs IH]; intros w w'; [reflexivity|].
  cbn [embed_chunks]. rewrite !bind_run, !embed_query_run.
  destruct (provider_embed _ _) as [v|msg]; [|reflexivity].
  rewrite !bind_run.
  destruct (List.length v =? _)%nat; [|reflexivity].
  rewrite !mret_run, !bind_run.
  specialize (IH (record_request (EmbedRequest (embeddings_model_id e) (text c)) w)
                 (record_request (EmbedRequest (embeddings_model_id e) (text c)) w')).
  destruct (embed_chunks e cs _) as [[es|err] w1];
    destruct (embed_chunks e cs _) as [[es'|err'] w1'];
    rewrite ?mret_run; cbn [fst] in IH |- *; congruence.
Qed.

(** X13: building again replaces the index. After a successful
    [get_vector_store], a second one that succeeds leaves at
    "faiss_index" what it would have left without the first (nothing of
    the first index remains), and a second one that fails leaves the first
    index in place. *)
Theorem rebuild_replaces_the_index (docs1 docs2 : list Chunk) (w : World) :
  fst (get_vector_store docs1 w) = Ok tt ->
  let w1 := snd (get_vector_store docs1 w) in
  match fst (get_vector_store docs2 w1) with
  | Ok _ =>
      fst (get_vector_store docs2 w) = Ok tt
      /\ disk (snd (get_vector_store docs2 w1)) = disk (snd (get_vector_store docs2 w))
  | Err e =>
      fst (get_vector_store docs2 w) = Err e
      /\ disk (snd (get_vector_store docs2 w1)) = disk w1
  end.
Proof.
  intros Hfirst. cbv zeta.
  rewrite !get_vector_store_run, !FAISS_from_documents_run in *.
  pose proof (embed_chunks_frame bedrock_embeddings docs1 w) as Hframe1.
  destruct (embed_chunks bedrock_embeddings docs1 w) as [[es1|err1] w1];
    [|discriminate]. cbn [snd] in Hframe1 |- *.
  destruct Hframe1 as (_ & Hdisk1 & _).
  pose proof (embed_chunks_fst bedrock_embeddings docs2 w
                (store_file "faiss_index"
                   (persisted {| embedding_function := bedrock_embeddings;
                                 dimension := provider_dimension
                                                (embeddings_model_id bedrock_embeddings);
                                 entries := es1 |}) w1)) as Hsame.
  pose proof (embed_chunks_frame bedrock_embeddings docs2 w) as Hframe2.
  pose proof (embed_chunks_frame bedrock_embeddings docs2
                (store_file "faiss_index"
                   (persisted {| embedding_function := bedrock_embeddings;
                                 dimension := provider_dimension
                                                (embeddings_model_id bedrock_embeddings);
                                 entries := es1 |}) w1)) as Hframe2'.
  destruct (embed_chunks bedrock_embeddings docs2 w) as [[es2|err2] w2];
    destruct (embed_chunks bedrock_embeddings docs2 (store_file _ _ _)) as [[es2'|err2'] w2'];
    cbn [fst snd] in Hsame, Hframe2, Hframe2' |- *; try discriminate.
  - injection Hsame as <-. split; [reflexivity|].
    destruct Hframe2 as (_ & Hdisk2 & _). destruct Hframe2' as (_ & Hdisk2' & _).
    cbn [disk store_file] in Hdisk2' |- *.
    rewrite Hdisk2', Hdisk2, Hdisk1. apply insert_insert_eq.
  - injection Hsame as <-. split; [reflexivity|].
    now destruct Hframe2' as (_ & Hdisk2' & _).
Qed.

(** ** One request per chunk *)



End Pipeline.

(** * A worked example

  The document of the specification's scenario, "The sky is blue. Water
  is wet.", chunked with [max_size = 20] and [overlap = 5], behind a
  small stand-in for the Bedrock service. *)
Module Fixture.

Definition separator : string := newline +:+ newline.
Definition metric : string := "inner_product".
Definition dimension_of (model : string) : nat := 2.

Definition dot (a b : Vector) : Q :=
  fold_right Qplus 0%Q (zip_with Qmult a b).

Definition embed (model input : string) : response Vector :=
  if String.eqb input "" then Refusal "ValidationException: empty input"
  else if String.eqb input ". Water is wet." then Reply [0%Q; 1%Q]
  else Reply [1%Q; 0%Q].

Definition generate (model prompt : string) (kwargs : gmap string Z) : response string :=
  Reply "The sky is blue.".

Definition sky_document : Document :=
  {| source := "data/sky.pdf"; page := 0; page_content := "The sky is blue. Water is wet." |}.

Definition sky_chunk : Chunk :=
  {| source_document_id := ("data/sky.pdf", 0);
     start_offset := 0; end_offset := 20; text := "The sky is blue. Wat" |}.

Definition water_chunk : Chunk :=
  {| source_document_id := ("data/sky.pdf", 0);
     start_offset := 15; end_offset := 30; text := ". Water is wet." |}.

Definition sky_store : FAISS :=
  {| embedding_function := bedrock_embeddings;
     dimension := 2;
     entries := [ (sky_chunk, [1%Q; 0%Q]); (water_chunk, [0%Q; 1%Q]) ] |}.

Definition water_store : FAISS :=
  {| embedding_function := bedrock_embeddings;
     dimension := 2;
     entries := [ (water_chunk, [0%Q; 1%Q]) ] |}.

Definition sky_question : string := "What color is the sky?".

Definition sky_docs : RetrievalResult := [ (sky_chunk, 1%Q); (water_chunk, 0%Q) ].

Definition asking : Session :=
  {| typed_question := sky_question; store_vector_pressed := false; send_pressed := true |}.

Definition empty_world : World :=
  {| directories := ∅; disk := ∅; session := asking; screen := []; requests := [] |}.

(** A world whose index was saved by [get_vector_store]. *)
Definition indexed_world : World :=
  {| directories := {[ "data" := [sky_document] ]};
     disk := {[ "faiss_index" := persisted metric sky_store ]};
     session := asking; screen := []; requests := [] |}.

(** The same index next to another file, and no documents. *)
Definition crowded_world : World :=
  {| directories := ∅;
     disk := <[ "notes" := persisted metric water_store ]>
               {[ "faiss_index" := persisted metric sky_store ]};
     session := asking; screen := [Heading "earlier run"]; requests := [] |}.



(** [get_response_llm] and [main] behind the stand-in service. *)
Definition ask (store : FAISS) (w : World) : result string * World :=
  get_response_llm embed generate dot separator get_llm store sky_question w.

Definition run_main (w : World) : result unit * World :=
  main embed dimension_of generate dot metric separator w.

End Fixture.

(** The scenario of the specification: two overlapping chunks, and the
    chunk with "sky is blue" is the best match of the question. *)
Example chunk_sky_document :
  chunk Fixture.sky_document 20 5 = Ok [Fixture.sky_chunk; Fixture.water_chunk].
Proof. vm_compute. reflexivity. Qed.

Example search_sky_question :
  search Fixture.dot Fixture.sky_store [1%Q; 0%Q] 1 = Ok [ (Fixture.sky_chunk, 1%Q) ].
Proof. vm_compute. reflexivity. Qed.

Example build_sky_store :
  fst (FAISS_from_documents Fixture.embed Fixture.dimension_of
         [Fixture.sky_chunk; Fixture.water_chunk] bedrock_embeddings Fixture.empty_world)
  = Ok Fixture.sky_store.
Proof. vm_compute. reflexivity. Qed.

(** The parameters of [get_documents] satisfy the chunker's constraints:
    splitting never fails with [InvalidConfig]. *)
Lemma get_documents_config_valid (w : World) :
  exists chunks : list Chunk, fst (get_documents w) = Ok chunks.
Proof.
  unfold get_documents, PyPDFDirectoryLoader_load.
  rewrite !bind_run. unfold get_world. rewrite mret_run, bind_run. unfold lift.
  assert (Hsplit : forall docs : list Document,
             exists chunks : list Chunk,
               split_documents {| chunk_size := 1000; chunk_overlap := 500 |} docs = Ok chunks).
  { induction docs as [|d ds [rest IH]]; [now exists []|].
    cbn [split_documents chunk_size chunk_overlap].
    rewrite chunk_valid by lia. rewrite IH. eexists. reflexivity. }
  destruct (Hsplit (default [] (directories w !! "data"))) as [chunks Hc].
  rewrite Hc. now exists chunks.
Qed.

(** * The theorems at the worked example *)

Import Fixture.

(** The prompt sent for the question about the sky holds both chunks. *)
Lemma prompt_assembly_grounded_witness :
  requests (snd (ask sky_store empty_world)) =
  requests empty_world ++
    [ EmbedRequest (embeddings_model_id (embedding_function sky_store)) sky_question;
      GenerateRequest (model_id get_llm)
        (rendered (context_block separator sky_docs) sky_question) (model_kwargs get_llm) ].
Proof.
  apply (proj2 (proj2 (proj2 (proj2
           (prompt_assembly_grounded embed generate dot separator sky_docs sky_question))))
           get_llm sky_store empty_world [1%Q; 0%Q]).
  - reflexivity.
  - vm_compute. reflexivity.
Defined.

(** The saved index of the example loads back and searches alike. *)
Lemma save_then_load_round_trip_witness :
  search dot (restored bedrock_embeddings (persisted metric sky_store)) [1%Q; 0%Q] 3
  = search dot sky_store [1%Q; 0%Q] 3.
Proof.
  pose proof (proj1 (save_then_load_round_trip embed dimension_of dot metric
                       [sky_chunk; water_chunk] empty_world)) as H.
  destruct (FAISS_from_documents embed dimension_of [sky_chunk; water_chunk]
              bedrock_embeddings empty_world) as [[store|e] w0] eqn:E.
  - assert (Hstore : store = sky_store).
    { apply (f_equal fst) in E. rewrite build_sky_store in E. now injection E. }
    subst store. destruct H as (_ & _ & H).
    apply (H true (restored bedrock_embeddings (persisted metric sky_store))).
    rewrite FAISS_load_local_cases. cbn [disk store_file].
    now rewrite lookup_insert_eq.
  - apply (f_equal fst) in E. rewrite build_sky_store in E. discriminate.
Defined.


(** The two chunks of the example overlap by five characters. *)
Lemma chunks_cover_and_overlap_witness :
  exists chunks : list Chunk,
    chunk sky_document 20 5 = Ok chunks
    /\ forall (n : nat) (c1 c2 : Chunk),
         chunks !! n = Some c1 -> chunks !! S n = Some c2 ->
         end_offset c1 = start_offset c2 + 5.
Proof.
  destruct (chunks_cover_and_overlap sky_document 20 5 ltac:(lia) ltac:(lia))
    as (chunks & Hchunks & _ & _ & Hnext).
  exists chunks. split; [exact Hchunks|].
  intros n c1 c2 H1 H2. exact (proj1 (proj2 (proj2 (Hnext n c1 c2 H1 H2)))).
Defined.

(** [k = 0] is refused, and [k = 3] returns the two entries ranked. *)
Lemma search_returns_ranked_top_k_witness :
  search dot sky_store [1%Q; 0%Q] 0 = Err InvalidArgument
  /\ exists r : RetrievalResult,
       search dot sky_store [1%Q; 0%Q] 3 = Ok r
       /\ Permutation r (scored dot sky_store [1%Q; 0%Q]).
Proof.
  split.
  - apply (proj1 (search_returns_ranked_top_k dot sky_store [1%Q; 0%Q] 0)). lia.
  - destruct (proj2 (search_returns_ranked_top_k dot sky_store [1%Q; 0%Q] 3) ltac:(lia))
      as (r & rest & Hsearch & _ & _ & _ & _ & _ & Hall).
    exists r. split; [exact Hsearch|]. apply Hall. simpl. lia.
Defined.

(** The question about the sky is answered on the page. *)
Lemma answer_is_all_or_nothing_witness :
  run_main indexed_world = (Ok tt, show (Written "The sky is blue.")
                                     (snd (ask sky_store
                                             (shown (page_frame ++ [Spinner "Processing..."])
                                                indexed_world)))).
Proof.
  assert (Hdisk : disk indexed_world !! "faiss_index" = Some (persisted metric sky_store))
    by (vm_compute; reflexivity).
  destruct (answer_is_all_or_nothing embed dimension_of generate dot metric separator
              indexed_world (persisted metric sky_store) eq_refl eq_refl Hdisk) as [_ H].
  cbv zeta in H.
  change (restored bedrock_embeddings (persisted metric sky_store)) with sky_store in H.
  change (typed_question (session indexed_world)) with sky_question in H.
  fold (ask sky_store (shown (page_frame ++ [Spinner "Processing..."]) indexed_world)) in H.
  assert (Hfst : fst (ask sky_store (shown (page_frame ++ [Spinner "Processing..."])
                                       indexed_world)) = Ok "The sky is blue.")
    by (vm_compute; reflexivity).
  destruct (ask sky_store _) as [[t|e] w2]; cbn [fst snd] in Hfst |- *; [|discriminate].
  injection Hfst as ->. exact (proj1 H).
Defined.

(** The answer is the same whatever else is on the disk. *)
Lemma index_travels_through_the_disk_witness :
  fst (run_main indexed_world) = fst (run_main crowded_world).
Proof.
  refine (proj1 (proj2 (index_travels_through_the_disk embed dimension_of generate dot
                          metric separator [] empty_world indexed_world crowded_world
                          eq_refl eq_refl eq_refl _))).
  vm_compute. reflexivity.
Defined.


(** C4 fails on the code: asked over two stores that ground the answer
    on different chunks, [get_response_llm] returns the same value, the
    text; the sources are in the answers of the chain only. *)
Lemma response_carries_no_sources :
  let qa (store : FAISS) :=
    RetrievalQA_from_chain_type get_llm "stuff"
      (as_retriever store "similarity" {[ "k" := 3%Z ]}) true PROMPT in
  exists a1 a2 : Answer,
    fst (RetrievalQA_call embed generate dot separator (qa sky_store) sky_question empty_world)
    = Ok a1
    /\ fst (RetrievalQA_call embed generate dot separator (qa water_store) sky_question
              empty_world) = Ok a2
    /\ source_documents a1 = Some sky_docs
    /\ source_documents a2 = Some [ (water_chunk, 0%Q) ]
    /\ source_documents a1 <> source_documents a2
    /\ fst (ask sky_store empty_world) = Ok "The sky is blue."
    /\ fst (ask water_store empty_world) = Ok "The sky is blue.".
Proof.
  cbv zeta.
  exists {| query := sky_question; answer_result := "The sky is blue.";
            source_documents := Some sky_docs |},
         {| query := sky_question; answer_result := "The sky is blue.";
            source_documents := Some [ (water_chunk, 0%Q) ] |}.
  split; [vm_compute; reflexivity|].
  split; [vm_compute; reflexivity|].
  split; [reflexivity|]. split; [reflexivity|].
  split; [discriminate|].
  split; vm_compute; reflexivity.
Qed.

(** * More of the worked example *)

Module Scenario.

Definition idle : Session :=
  {| typed_question := ""; store_vector_pressed := false; send_pressed := false |}.

Definition storing : Session :=
  {| typed_question := ""; store_vector_pressed := true; send_pressed := false |}.

(** The page is opened: nothing is stored, nothing is pressed. *)
Definition idle_world : World :=
  {| directories := {[ "data" := [sky_document] ]}; disk := ∅;
     session := idle; screen := []; requests := [] |}.

(** "Store Vector" is pressed over the document of the example. *)
Definition storing_world : World :=
  {| directories := {[ "data" := [sky_document] ]}; disk := ∅;
     session := storing; screen := []; requests := [] |}.

Definition empty_store : FAISS :=
  {| embedding_function := bedrock_embeddings; dimension := 2; entries := [] |}.

Definition store_chunks (docs : list Chunk) (w : World) : result unit * World :=
  get_vector_store embed dimension_of metric docs w.

End Scenario.

Import Scenario.

Lemma main_without_a_click_witness :
  run_main idle_world = (Ok tt, shown page_frame idle_world).
Proof.
  exact (proj1 (main_without_a_click embed dimension_of generate dot metric separator
                  idle_world eq_refl eq_refl)).
Defined.

Lemma main_send_without_index_witness :
  fst (run_main empty_world) = Err (IndexLoadError "no index at this path").
Proof.
  refine (proj1 (main_send_without_index embed dimension_of generate dot metric separator
                   empty_world eq_refl eq_refl _)).
  vm_compute. reflexivity.
Defined.

Lemma main_store_vector_run_witness :
  exists sent : list Request,
    requests (snd (run_main storing_world)) = requests storing_world ++ sent
    /\ Forall is_embed_request sent.
Proof.
  exact (proj2 (main_store_vector_run embed dimension_of generate dot metric separator
                  storing_world eq_refl eq_refl)).
Defined.

Lemma store_then_ask_witness :
  exists store : FAISS,
    disk (snd (run_main storing_world)) !! "faiss_index" = Some (persisted metric store).
Proof.
  assert (Hok : fst (run_main storing_world) = Ok tt) by (vm_compute; reflexivity).
  destruct (store_then_ask embed dimension_of generate dot metric separator
              storing_world asking eq_refl eq_refl eq_refl eq_refl Hok)
    as (store & _ & Hdisk & _).
  exists store. exact Hdisk.
Defined.

Lemma empty_store_still_asks_witness :
  fst (ask empty_store empty_world) = Ok "The sky is blue.".
Proof.
  pose proof (empty_store_still_asks embed generate dot separator get_llm empty_store
                sky_question empty_world eq_refl) as H.
  exact (proj2 H).
Defined.

Lemma prompt_length_is_bounded_witness :
  String.length (rendered (context_block separator sky_docs) sky_question)
  <= 306 + 3 * 20 + 2 * String.length separator + String.length sky_question.
Proof.
  assert (Hall : Forall (fun e : Chunk * Vector => String.length (text (fst e)) <= 20)
                   (entries sky_store)).
  { repeat constructor; cbn; lia. }
  destruct (prompt_length_is_bounded embed generate dot separator get_llm sky_store
              sky_question empty_world 20 Hall
              (model_id get_llm) (rendered (context_block separator sky_docs) sky_question)
              (model_kwargs get_llm)) as [[] | (docs & _ & _ & Hbound)].
  - vm_compute. right. left. reflexivity.
  - exact Hbound.
Defined.

Lemma rebuild_replaces_the_index_witness :
  fst (store_chunks [water_chunk] empty_world) = Ok tt
  /\ disk (snd (store_chunks [water_chunk]
                  (snd (store_chunks [sky_chunk; water_chunk] empty_world))))
     = disk (snd (store_chunks [water_chunk] empty_world)).
Proof.
  assert (Hfirst : fst (store_chunks [sky_chunk; water_chunk] empty_world) = Ok tt)
    by (vm_compute; reflexivity).
  pose proof (rebuild_replaces_the_index embed dimension_of metric
                [sky_chunk; water_chunk] [water_chunk] empty_world Hfirst) as H.
  cbv zeta in H.
  assert (Hsecond : fst (store_chunks [water_chunk]
                           (snd (store_chunks [sky_chunk; water_chunk] empty_world))) = Ok tt)
    by (vm_compute; reflexivity).
  unfold store_chunks in *. rewrite Hsecond in H. exact H.
Defined.

Lemma main_changes_only_the_index_file_witness :
  disk (snd (run_main indexed_world)) = disk indexed_world.
Proof.
  exact (proj1 (proj2 (proj2 (proj2
           (main_changes_only_the_index_file embed dimension_of generate dot metric separator
              indexed_world)))) eq_refl).
Defined.

